(** * Steam games analytics dashboards: the comparison and classification core

    A shallow embedding of the data-fetching and classification code of
    the dashboard pages ([charts/fetch_top_trending_games.py],
    [charts/players_count_trends.py],
    [charts/players_count_trends_hourly.py],
    [charts/price_vs_review_sentiment.py]).

    Conventions of the embedding.
    - A SQL query is a function from the tables of the database to its
      result rows; SQL [NULL] and the [NaN] that pandas reads it as are
      [None].
    - Numbers are exact rationals ([Q]): [AVG], [SUM], [/] and [ROUND]
      are modelled on exact values, not on binary floating point.
    - A table is the list of its rows in the order the engine scans them.
    - A page function runs in the monad [ui]: it may send statements to
      the database (logged in [sent]), write to the page ([shown]) and
      raise an exception.
    - The statement texts ([top_100_sql], [momentum_sql], ...) name the
      statements in the log; some are shortened. What a statement
      computes is the query function next to it.
    - [st.cache_data] (a memo of five minutes around the fetch
      functions) and the drawing of charts and tables are left out:
      every call runs the body of the function. *)

From Stdlib Require Import ZArith QArith Qround Qabs String DecimalString List Permutation Sorted Lia Lqa.
From stdpp Require Import base decidable option list strings sets gmap.

Local Open Scope string_scope.
Local Open Scope list_scope.
Local Open Scope Z_scope.

(** ** Calendar dates, as [datetime.date] *)

Record date := Date { year : Z; month : Z; day : Z }.

Definition date_eqb (a b : date) : bool :=
  (year a =? year b) && (month a =? month b) && (day a =? day b).

(** Lexicographic order on (year, month, day). *)
Definition date_leb (a b : date) : bool :=
  (year a <? year b)
  || ((year a =? year b)
      && ((month a <? month b) || ((month a =? month b) && (day a <=? day b)))).

Definition is_leap (y : Z) : bool :=
  (y mod 4 =? 0) && (negb (y mod 100 =? 0) || (y mod 400 =? 0)).

Definition days_in_month (y m : Z) : Z :=
  if m =? 2 then (if is_leap y then 29 else 28)
  else if (m =? 4) || (m =? 6) || (m =? 9) || (m =? 11) then 30
  else 31.

(** The dates a [datetime.date] can hold: years 1 to 9999. *)
Definition valid_date (d : date) : bool :=
  (1 <=? year d) && (year d <=? 9999)
  && (1 <=? month d) && (month d <=? 12)
  && (1 <=? day d) && (day d <=? days_in_month (year d) (month d)).

Definition date_min : date := Date 1 1 1.

(** Calendar order, strict and large. *)
Definition date_lt (a b : date) : Prop :=
  year a < year b
  \/ (year a = year b
      /\ (month a < month b \/ (month a = month b /\ day a < day b))).

Definition date_le (a b : date) : Prop := a = b \/ date_lt a b.

(** [p] is the calendar day before [d]: the latest date before it. *)
Definition previous_calendar_day (p d : date) : Prop :=
  valid_date p = true
  /\ date_lt p d
  /\ forall e, valid_date e = true -> date_lt e d -> date_le e p.

#[global] Instance date_eq_dec : EqDecision date.
Proof. solve_decision. Defined.

(** [d - timedelta(days=1)]; [None] is the [OverflowError] Python raises
    below [date.min]. *)
Definition minus_one_day (d : date) : option date :=
  if 1 <? day d then Some (Date (year d) (month d) (day d - 1))
  else if 1 <? month d then
    Some (Date (year d) (month d - 1) (days_in_month (year d) (month d - 1)))
  else if 1 <? year d then Some (Date (year d - 1) 12 31)
  else None.

(** [str(d)], the ISO format YYYY-MM-DD. *)
Definition zero_pad (width : nat) (z : Z) : string :=
  let digits := NilZero.string_of_uint (N.to_uint (Z.to_N z)) in
  String.concat "" (repeat "0" (width - String.length digits)) ++ digits.

Definition isoformat (d : date) : string :=
  zero_pad 4 (year d) ++ "-" ++ zero_pad 2 (month d) ++ "-" ++ zero_pad 2 (day d).

(** ** The database *)

(** Rows of [games_cleaned]; the measurement columns are nullable. *)
Record games_row := GamesRow {
  g_appid : Z;
  g_name : string;
  g_run_date : date;
  g_run_hour : Z;
  g_current_players : option Q;
  g_positive_reviews : option Q;
  g_negative_reviews : option Q;
  g_price_usd : option Q;
  g_median_playtime_2weeks : option Q
}.

(** Rows of [trending_games]. *)
Record trending_row := TrendingRow {
  t_appid : Z;
  t_name : string;
  t_run_date : date;
  t_run_hour : Z
}.

(** Rows of [player_count]. *)
Record player_row := PlayerRow {
  p_appid : Z;
  p_run_date : date;
  p_run_hour : Z;
  p_current_players : option Q
}.

Record database := Database {
  games_cleaned : list games_row;
  trending_games : list trending_row;
  player_count : list player_row
}.

(** ** Effects of a page function *)

Inductive exn :=
| Error (msg : string)          (* mysql.connector.Error *)
| DatabaseError (msg : string)  (* pandas.errors.DatabaseError *)
| OverflowError (msg : string).

Inductive outcome (A : Type) :=
| Returned (a : A)
| Raised (e : exn).
Arguments Returned {A} a.
Arguments Raised {A} e.

(** A parameter bound to a statement. *)
Inductive sql_param :=
| PDate (d : date)
| PInt (z : Z)
| PInts (zs : list Z).

(** What the page wrote with [st.error] and [st.warning]. *)
Inductive message :=
| StError (text : string)
| StWarning (text : string).

(** The observable state: the statements handed to [pd.read_sql] so far
    (sent, or tried on a connection that is down), oldest first, and the
    messages shown on the page. *)
Record world := World {
  sent : list (string * list sql_param);
  shown : list message
}.

Definition ui (A : Type) : Type := world -> outcome A * world.

Definition ret {A} (a : A) : ui A := fun w => (Returned a, w).

Definition bind {A B} (m : ui A) (k : A -> ui B) : ui B :=
  fun w => match m w with
           | (Returned a, w') => k a w'
           | (Raised e, w') => (Raised e, w')
           end.

Definition raise {A} (e : exn) : ui A := fun w => (Raised e, w).

Notation "'do' x <- m ; k" := (bind m (fun x => k))
  (at level 10, x name, m at level 100, k at level 200).
Notation "'do' ' p <- m ; k" := (bind m (fun x => let 'p := x in k))
  (at level 10, p pattern, m at level 100, k at level 200).
Notation "'run' m ; k" := (bind m (fun _ => k))
  (at level 10, m at level 100, k at level 200).

(** [try: body except Error as e: handler]: only [Error], the exception
    of the connector, is caught; a [DatabaseError] of pandas is not one. *)
Definition try_except_Error {A} (body : ui A) (handler : string -> ui A) : ui A :=
  fun w => match body w with
           | (Raised (Error msg), w') => handler msg w'
           | r => r
           end.

(** [try: body except Exception as e: handler]: every exception is caught;
    [str(e)] is its message. *)
Definition try_except_Exception {A} (body : ui A) (handler : string -> ui A) : ui A :=
  fun w => match body w with
           | (Raised (Error msg), w') => handler msg w'
           | (Raised (DatabaseError msg), w') => handler msg w'
           | (Raised (OverflowError msg), w') => handler msg w'
           | r => r
           end.

Definition st_error (text : string) : ui unit :=
  fun w => (Returned tt, World (sent w) (shown w ++ [StError text])).

Definition st_warning (text : string) : ui unit :=
  fun w => (Returned tt, World (sent w) (shown w ++ [StWarning text])).

(** How a statement handed to [pd.read_sql] can fail.
    - [Disconnected msg]: the connection is not available; the connector
      raises its [Error] when pandas asks it for a cursor, before the
      statement is executed.
    - [ExecuteFailed text]: the statement fails while it is executed;
      pandas wraps whatever the cursor raised in its own
      [DatabaseError], whose text is [text]. *)
Inductive failure :=
| Disconnected (msg : string)
| ExecuteFailed (text : string).

(** A connection: the database behind it and, for the n-th statement
    handed to it (counting from 0), the way it fails, if it does. *)
Record connection := Connection {
  db : database;
  fault : nat -> option failure
}.

Definition healthy (d : database) : connection := Connection d (fun _ => None).

(** A connection that is down: no statement gets as far as being
    executed. *)
Definition unreachable (d : database) (msg : string) : connection :=
  Connection d (fun _ => Some (Disconnected msg)).

(** A connection on which every statement fails while it is executed. *)
Definition failing (d : database) (text : string) : connection :=
  Connection d (fun _ => Some (ExecuteFailed text)).

(** The text of the [DatabaseError] pandas raises for a statement the
    server rejects. *)
Definition execution_failed (statement msg : string) : string :=
  "Execution failed on sql '" ++ statement ++ "': " ++ msg.

(** The server's answer to a statement: its rows, or a rejection (a
    statement it cannot parse or run). *)
Inductive answer (A : Type) :=
| Rows (a : A)
| Rejected (msg : string).
Arguments Rows {A} a.
Arguments Rejected {A} msg.

(** [pd.read_sql(query, connection, params=...)]: one statement is
    handed over and logged; the rows of the query come back, or an
    exception: the [Error] of the connector when the connection is
    down, the [DatabaseError] of pandas when the statement fails while
    it is executed or is rejected by the server. *)
Definition read_sql {A} (conn : connection) (statement : string)
    (params : list sql_param) (query : database -> answer A) : ui A :=
  fun w =>
    let w' := World (sent w ++ [(statement, params)]) (shown w) in
    match fault conn (length (sent w)) with
    | Some (Disconnected msg) => (Raised (Error msg), w')
    | Some (ExecuteFailed text) => (Raised (DatabaseError text), w')
    | None =>
        match query (db conn) with
        | Rows a => (Returned a, w')
        | Rejected msg => (Raised (DatabaseError (execution_failed statement msg)), w')
        end
    end.

Definition fresh : world := World [] [].

(** ** Top 100 movement between two consecutive hours
    ([fetch_top_100_movement_data]) *)

(** [SELECT appid, name FROM trending_games
     WHERE run_date = %s AND run_hour = %s LIMIT 100]. *)
Definition top_100_query (run_date : date) (run_hour : Z) (d : database)
    : list (Z * string) :=
  take 100
    (map (fun r => (t_appid r, t_name r))
       (List.filter
          (fun r => date_eqb (t_run_date r) run_date && (t_run_hour r =? run_hour))
          (trending_games d))).

(** [set(result['appid'].tolist()) if not result.empty else set()]. *)
Definition appid_set (result : list (Z * string)) : gset Z :=
  match result with
  | [] => ∅
  | _ => list_to_set (map fst result)
  end.

Definition top_100_distinct_sql : string := "SELECT DISTINCT appid, name FROM trending_games WHERE run_date = %s AND run_hour = %s LIMIT 100".

(** [SELECT DISTINCT appid, name ... LIMIT 100]. *)
Definition top_100_distinct_query (run_date : date) (run_hour : Z) (d : database)
    : list (Z * string) :=
  take 100
    (remove_dups
       (map (fun r => (t_appid r, t_name r))
          (List.filter
             (fun r => date_eqb (t_run_date r) run_date && (t_run_hour r =? run_hour))
             (trending_games d)))).

Definition fetch_top_100_hourly (conn : connection) (run_date : date) (run_hour : Z)
    : ui (gset Z) :=
  try_except_Error
    (do result <-
       read_sql conn top_100_distinct_sql [PDate run_date; PInt run_hour]
         (fun d => Rows (top_100_distinct_query run_date run_hour d));
     ret (appid_set result))
    (fun e =>
       run st_error ("Error fetching top 100 hourly games: " ++ e)%string;
       ret ∅).

(** The window before (run_date, run_hour): the hour before, and below
    hour 0 the hour 23 of the day before. *)
Definition previous_window (run_date : date) (run_hour : Z) : ui (date * Z) :=
  let prev_hour := run_hour - 1 in
  let prev_date := run_date in
  if prev_hour <? 0 then
    match minus_one_day run_date with
    | Some d => ret (d, 23)
    | None => raise (OverflowError "date value out of range")
    end
  else ret (prev_date, prev_hour).

(** The three movement sets of the current ids against the previous ones:
    new entries, stayers, removals. *)
Definition categorize (current_appids prev_appids : gset Z)
    : gset Z * gset Z * gset Z :=
  (current_appids ∖ prev_appids,
   current_appids ∩ prev_appids,
   prev_appids ∖ current_appids).

Record movement := Movement {
  rising : gset Z;
  holding : gset Z;
  falling : gset Z;
  current_df : list (Z * string);
  prev_df : list (Z * string)
}.

Definition no_movement : movement := Movement ∅ ∅ ∅ [] [].

Definition top_100_sql : string := "SELECT appid, name FROM trending_games WHERE run_date = %s AND run_hour = %s LIMIT 100".

Definition fetch_top_100_movement_data (conn : connection) (run_date : date)
    (run_hour : Z) : ui movement :=
  try_except_Error
    (do current_result <-
       read_sql conn top_100_sql [PDate run_date; PInt run_hour]
         (fun d => Rows (top_100_query run_date run_hour d));
     let current_appids := appid_set current_result in
     do '(prev_date, prev_hour) <- previous_window run_date run_hour;
     do prev_result <-
       read_sql conn top_100_sql [PDate prev_date; PInt prev_hour]
         (fun d => Rows (top_100_query prev_date prev_hour d));
     let prev_appids := appid_set prev_result in
     let '(r, h, f) := categorize current_appids prev_appids in
     ret (Movement r h f current_result prev_result))
    (fun e =>
       run st_error ("Error fetching movement data: " ++ e)%string;
       ret no_movement).

(** ** SQL values and functions over nullable numbers *)

Local Open Scope Q_scope.

Definition Qlt_bool (x y : Q) : bool := negb (Qle_bool y x).

Definition lift2 (f : Q -> Q -> Q) (a b : option Q) : option Q :=
  match a, b with
  | Some x, Some y => Some (Qred (f x y))
  | _, _ => None
  end.

Definition sql_add : option Q -> option Q -> option Q := lift2 Qplus.
Definition sql_sub : option Q -> option Q -> option Q := lift2 Qminus.
Definition sql_mul : option Q -> option Q -> option Q := lift2 Qmult.

(** [a / b]: [NULL] when an operand is [NULL] or the divisor is 0. The
    quotient is exact: no scale is cut off before a [ROUND]. *)
Definition sql_div (a b : option Q) : option Q :=
  match a, b with
  | Some x, Some y => if Qeq_bool y 0 then None else Some (Qred (x / y))
  | _, _ => None
  end.

(** [NULLIF(a, b)]. *)
Definition nullif (a : option Q) (b : Q) : option Q :=
  match a with
  | Some x => if Qeq_bool x b then None else Some x
  | None => None
  end.

(** [COALESCE(a, b)] with a constant [b]. *)
Definition coalesce (a : option Q) (b : Q) : option Q :=
  match a with
  | Some x => Some x
  | None => Some b
  end.

(** [ROUND(x, digits)] on an exact value: half away from zero. *)
Definition round_half_away (digits : Z) (x : Q) : Q :=
  let scale := inject_Z (10 ^ digits) in
  let y := x * scale in
  let n := if Qle_bool 0 y then Qfloor (y + (1 # 2)) else Qceiling (y - (1 # 2)) in
  Qred (inject_Z n / scale).

Definition sql_round (digits : Z) (a : option Q) : option Q :=
  match a with
  | Some x => Some (round_half_away digits x)
  | None => None
  end.

(** The values of a column that are not [NULL]. *)
Definition non_null (col : list (option Q)) : list Q := omap id col.

Definition Qsum (l : list Q) : Q := fold_right Qplus 0 l.

Definition Qmax2 (x y : Q) : Q := if Qle_bool x y then y else x.

(** Aggregates skip [NULL] and are [NULL] over no value. *)
Definition sql_sum (col : list (option Q)) : option Q :=
  match non_null col with
  | [] => None
  | vs => Some (Qred (Qsum vs))
  end.

Definition sql_avg (col : list (option Q)) : option Q :=
  match non_null col with
  | [] => None
  | vs => Some (Qred (Qsum vs / inject_Z (Z.of_nat (length vs))))
  end.

Definition sql_max (col : list (option Q)) : option Q :=
  match non_null col with
  | [] => None
  | v :: vs => Some (fold_left Qmax2 vs v)
  end.

(** [MAX] of a text column (binary collation). *)
Definition max_string (col : list string) : option string :=
  match col with
  | [] => None
  | s :: ss => Some (fold_left (fun a b => if String.leb a b then b else a) ss s)
  end.

(** [a LEFT JOIN b ON on]: every left row once per matching right row,
    and once with a [NULL] right side when nothing matches. *)
Definition left_join {A B} (on : A -> B -> bool) (l : list A) (r : list B)
    : list (A * option B) :=
  flat_map
    (fun a => match List.filter (on a) r with
              | [] => [(a, None)]
              | bs => map (fun b => (a, Some b)) bs
              end)
    l.

(** Row order of [ORDER BY key DESC]: larger first, [NULL] last. *)
Definition desc_nulls_last (x y : option Q) : bool :=
  match x, y with
  | Some a, Some b => Qle_bool b a
  | Some _, None => true
  | None, Some _ => false
  | None, None => true
  end.

(** ** The database engine

    [ORDER BY] fixes the order of rows only up to ties: an engine is any
    sort that permutes the rows and leaves them ordered. *)

Class Engine := {
  order_by : forall {A : Type}, (A -> A -> bool) -> list A -> list A;
  order_by_Permutation :
    forall (A : Type) (le : A -> A -> bool) (l : list A),
      Permutation (order_by le l) l;
  order_by_Sorted :
    forall (A : Type) (le : A -> A -> bool) (l : list A),
      (forall x y, le x y = true \/ le y x = true) ->
      (forall x y z, le x y = true -> le y z = true -> le x z = true) ->
      StronglySorted (fun x y => le x y = true) (order_by le l)
}.

Fixpoint insert_sorted {A} (le : A -> A -> bool) (x : A) (l : list A) : list A :=
  match l with
  | [] => [x]
  | y :: l' => if le x y then x :: l else y :: insert_sorted le x l'
  end.

(** A stable sort: rows with equal keys stay in their scan order. *)
Fixpoint stable_sort {A} (le : A -> A -> bool) (l : list A) : list A :=
  match l with
  | [] => []
  | x :: l' => insert_sorted le x (stable_sort le l')
  end.

Definition stable_engine : Engine.
Proof.
  refine {| order_by := fun A le l => stable_sort le l |}.
  - intros A le l.
    assert (Hins : forall x k, Permutation (insert_sorted le x k) (x :: k)).
    { intros x k. induction k as [|y k IH]; simpl; [reflexivity|].
      destruct (le x y); [reflexivity|].
      rewrite IH. apply perm_swap. }
    induction l as [|x l IH]; simpl; [reflexivity|].
    rewrite Hins. now apply perm_skip.
  - intros A le l Htot Htrans.
    assert (Hins : forall x k,
               StronglySorted (fun a b => le a b = true) k ->
               StronglySorted (fun a b => le a b = true) (insert_sorted le x k)).
    { intros x k Hk. induction Hk as [|y k Hk IH Hy]; simpl.
      - repeat constructor.
      - destruct (le x y) eqn:Exy.
        + constructor; [now constructor|].
          constructor; [exact Exy|].
          rewrite List.Forall_forall in Hy |- *. intros z Hz.
          apply (Htrans x y z Exy). now apply Hy.
        + constructor; [exact IH|].
          assert (Hyx : le y x = true).
          { destruct (Htot x y) as [H|H]; [congruence|exact H]. }
          assert (Hp : Permutation (insert_sorted le x k) (x :: k)).
          { clear - k. induction k as [|z k IHk]; simpl; [reflexivity|].
            destruct (le x z); [reflexivity|].
            rewrite IHk. apply perm_swap. }
          rewrite List.Forall_forall in Hy |- *. intros z Hz.
          apply (Permutation_in _ Hp) in Hz. destruct Hz as [<-|Hz]; [exact Hyx|].
          now apply Hy. }
    induction l as [|x l IH]; simpl; [constructor|].
    apply Hins, IH.
Defined.

(** Another engine: it scans the rows from the last to the first, so
    rows with equal keys come out in the opposite order. *)
Definition reversing_engine : Engine.
Proof.
  refine {| order_by := fun A le l => stable_sort le (rev l) |}.
  - intros A le l.
    rewrite (order_by_Permutation (Engine := stable_engine) A le (rev l)).
    symmetry. apply Permutation_rev.
  - intros A le l Htot Htrans.
    now apply (order_by_Sorted (Engine := stable_engine) A le (rev l)).
Defined.

(** ** Queries of the trending-games page *)

Record trending_game := TrendingGame {
  tg_appid : Z;
  tg_name : string;
  avg_players_k : option Q;
  avg_positive_reviews_k : option Q;
  avg_negative_reviews_k : option Q;
  max_price_usd : option Q
}.

(** [ROUND(AVG(col) / 1000)]. *)
Definition avg_k (col : list (option Q)) : option Q :=
  sql_round 0 (sql_div (sql_avg col) (Some 1000)).

(** [ROUND(SUM(col) / 1000)]. *)
Definition sum_k (col : list (option Q)) : option Q :=
  sql_round 0 (sql_div (sql_sum col) (Some 1000)).

Record morning_row := MorningRow {
  m_appid : Z;
  m_avg_morning : option Q;
  m_name : option string
}.

Record afternoon_row := AfternoonRow {
  a_appid : Z;
  a_avg_afternoon : option Q
}.

Record momentum_row := MomentumRow {
  mo_appid : Z;
  mo_name : option string;
  avg_morning : option Q;
  avg_afternoon : option Q;
  delta : option Q
}.

(** [WHERE run_date = %s AND run_hour BETWEEN %s AND %s]. *)
Definition in_window (run_date : date) (h_start h_end : Z) (r : games_row) : bool :=
  date_eqb (g_run_date r) run_date
  && (h_start <=? g_run_hour r)%Z && (g_run_hour r <=? h_end)%Z.

(** The [morning] table expression: one row per appid with a record
    in the window ([GROUP BY appid]; the groups come in the order of the
    last record of each, one of the orders an engine may give). *)
Definition morning (run_date : date) (h_start h_end : Z) (d : database)
    : list morning_row :=
  let rows := List.filter (in_window run_date h_start h_end) (games_cleaned d) in
  map (fun appid =>
         let group := List.filter (fun r => (g_appid r =? appid)%Z) rows in
         MorningRow appid
           (sql_avg (map g_median_playtime_2weeks group))
           (max_string (map g_name group)))
      (remove_dups (map g_appid rows)).

(** The [afternoon] table expression. *)
Definition afternoon (run_date : date) (h_start h_end : Z) (d : database)
    : list afternoon_row :=
  let rows := List.filter (in_window run_date h_start h_end) (games_cleaned d) in
  map (fun appid =>
         let group := List.filter (fun r => (g_appid r =? appid)%Z) rows in
         AfternoonRow appid (sql_avg (map g_median_playtime_2weeks group)))
      (remove_dups (map g_appid rows)).

(** The select list of the momentum query on one joined row. *)
Definition momentum_select (j : morning_row * option afternoon_row) : momentum_row :=
  let '(m, a) := j in
  let a_avg := a ≫= a_avg_afternoon in
  MomentumRow (m_appid m) (m_name m) (m_avg_morning m)
    (coalesce a_avg 0)
    (sql_sub a_avg (m_avg_morning m)).

Inductive status := Rising | Falling | Stable.

Definition _TOTAL_GAMES_TO_DISPLAY : nat := 30.
Definition _RISING_THRESHOLD : Q := 200.
Definition _FALLING_THRESHOLD : Q := -200.

(** [column.fillna(v)]. *)
Definition fillna (v : Q) (x : option Q) : option Q :=
  match x with
  | Some q => Some q
  | None => Some v
  end.

Definition notna (x : option Q) : bool :=
  match x with Some _ => true | None => false end.

(** [x > t] and [x < t] on a value that may be [NaN]. *)
Definition nan_gt (x : option Q) (t : Q) : bool :=
  match x with Some q => Qlt_bool t q | None => false end.
Definition nan_lt (x : option Q) (t : Q) : bool :=
  match x with Some q => Qlt_bool q t | None => false end.

(** The classification lambda applied to the [delta] column. *)
Definition momentum_status (x : option Q) : status :=
  if notna x && nan_gt x _RISING_THRESHOLD then Rising
  else if notna x && nan_lt x _FALLING_THRESHOLD then Falling
  else Stable.

Record classified := Classified {
  c_row : momentum_row;
  c_status : status
}.

(** [momentum_df['delta'] = momentum_df['delta'].fillna(0)]. *)
Definition fillna_delta (r : momentum_row) : momentum_row :=
  MomentumRow (mo_appid r) (mo_name r) (avg_morning r) (avg_afternoon r)
    (fillna 0 (delta r)).

Definition classify (momentum_df : list momentum_row) : list classified :=
  map (fun r => let r' := fillna_delta r in Classified r' (momentum_status (delta r')))
      momentum_df.

Definition label (s : status) : string :=
  match s with
  | Rising => "🚀 Rising"
  | Falling => "📉 Falling"
  | Stable => "⚖️ Stable"
  end.

Definition status_eqb (a b : status) : bool :=
  match a, b with
  | Rising, Rising | Falling, Falling | Stable, Stable => true
  | _, _ => false
  end.

(** The rows shown in the tab of a status. *)
Definition tab (s : status) (df : list classified) : list classified :=
  take _TOTAL_GAMES_TO_DISPLAY (List.filter (fun c => status_eqb (c_status c) s) df).

Definition trending_sql : string := "SELECT appid, name, ROUND(AVG(current_players) / 1000) AS avg_players_k, ROUND(AVG(positive_reviews) / 1000) AS avg_positive_reviews_k, ROUND(AVG(negative_reviews) / 1000) AS avg_negative_reviews_k, MAX(price_usd) AS max_price_usd FROM games_cleaned WHERE run_date = %s GROUP BY appid, name ORDER BY avg_players_k DESC LIMIT %s;".

Definition momentum_sql : string := "WITH morning AS (...), afternoon AS (...) SELECT m.appid, m.name, m.avg_morning, COALESCE(a.avg_afternoon, 0) as avg_afternoon, (a.avg_afternoon - m.avg_morning) as delta FROM morning m LEFT JOIN afternoon a ON m.appid = a.appid ORDER BY delta DESC".

Section TrendingQueries.
Context {E : Engine}.

(** The aggregation of [fetch_top_trending_games_data], before
    [ORDER BY] and [LIMIT]: one row per (appid, name). *)
Definition trending_candidates (run_date : date) (d : database) : list trending_game :=
  let rows := List.filter (fun r => date_eqb (g_run_date r) run_date) (games_cleaned d) in
  map (fun k : Z * string =>
         let group :=
           List.filter (fun r => (g_appid r =? k.1)%Z && String.eqb (g_name r) k.2) rows in
         TrendingGame k.1 k.2
           (avg_k (map g_current_players group))
           (avg_k (map g_positive_reviews group))
           (avg_k (map g_negative_reviews group))
           (sql_max (map g_price_usd group)))
      (remove_dups (map (fun r => (g_appid r, g_name r)) rows)).

(** [... ORDER BY avg_players_k DESC LIMIT %s]; a negative limit is
    not a statement the server accepts. *)
Definition trending_query (run_date : date) (limit : Z) (d : database)
    : answer (list trending_game) :=
  if (limit <? 0)%Z then Rejected "You have an error in your SQL syntax"
  else
    Rows (take (Z.to_nat limit)
            (order_by (fun x y => desc_nulls_last (avg_players_k x) (avg_players_k y))
               (trending_candidates run_date d))).

Definition fetch_top_trending_games_data (conn : connection) (run_date : date)
    (limit : Z) : ui (list trending_game) :=
  try_except_Error
    (do result <-
       read_sql conn trending_sql [PDate run_date; PInt limit]
         (trending_query run_date limit);
     ret result)
    (fun e =>
       run st_error ("Error fetching trending games: " ++ e)%string;
       ret []).

(** The momentum query: [morning m LEFT JOIN afternoon a ON m.appid =
    a.appid ORDER BY delta DESC]. *)
Definition momentum_query (run_date : date)
    (morning_start morning_end afternoon_start afternoon_end : Z) (d : database)
    : list momentum_row :=
  order_by (fun x y => desc_nulls_last (delta x) (delta y))
    (map momentum_select
       (left_join (fun m a => (m_appid m =? a_appid a)%Z)
          (morning run_date morning_start morning_end d)
          (afternoon run_date afternoon_start afternoon_end d))).

(** The momentum part of [show_top_trending_games]: the classified
    table behind the three tabs (empty when nothing is shown). *)
Definition momentum_analysis (conn : connection) (selected_date : date)
    : ui (list classified) :=
  let morning_start := 1%Z in
  let morning_end := 12%Z in
  let afternoon_start := 13%Z in
  let afternoon_end := 23%Z in
  try_except_Exception
    (do momentum_df <-
       read_sql conn momentum_sql
         [PDate selected_date; PInt morning_start; PInt morning_end;
          PDate selected_date; PInt afternoon_start; PInt afternoon_end]
         (fun d => Rows (momentum_query selected_date morning_start morning_end
                           afternoon_start afternoon_end d));
     match momentum_df with
     | [] => run st_warning "No momentum data available."; ret []
     | _ => ret (classify momentum_df)
     end)
    (fun e =>
       run st_error ("Error calculating momentum: " ++ e)%string;
       ret []).

Definition show_top_trending_games (conn : connection) (selected_date : date)
    (top_n : Z) : ui (list classified) :=
  do games_data <- fetch_top_trending_games_data conn selected_date top_n;
  match games_data with
  | [] =>
      run st_warning ("⚠️ No data available for " ++ isoformat selected_date)%string;
      ret []
  | _ => momentum_analysis conn selected_date
  end.

End TrendingQueries.

(** ** Queries of the player-count pages *)

(** [appid IN (appids)]. *)
Definition appid_in (appids : list Z) (appid : Z) : bool :=
  existsb (Z.eqb appid) appids.

(** [LAG(value)] along the rows of one ordered partition: the value of
    the row before, [NULL] on the first row. *)
Fixpoint lag {A} (value : A -> option Q) (before : option Q) (partition : list A)
    : list (A * option Q) :=
  match partition with
  | [] => []
  | r :: rest => (r, before) :: lag value (value r) rest
  end.

(** The difference and the percent change of a value against the one
    before it:
    [cur - prev] and [ROUND((cur - prev) * 100.0 / NULLIF(prev, 0), 2)]. *)
Definition player_diff_of (cur prev : option Q) : option Q := sql_sub cur prev.

Definition pct_change_of (cur prev : option Q) : option Q :=
  sql_round 2 (sql_div (sql_mul (sql_sub cur prev) (Some 100)) (nullif prev 0)).

Record daily_total := DailyTotal {
  dt_appid : Z;
  dt_run_date : date;
  dt_players_k : option Q
}.

Record daily_trend := DailyTrend {
  d_appid : Z;
  d_run_date : date;
  players_k : option Q;
  prev_players_k : option Q;
  player_diff_k : option Q;
  d_pct_change : option Q
}.

Record hourly_trend := HourlyTrend {
  h_appid : Z;
  h_run_date : date;
  h_run_hour : Z;
  current_players : option Q;
  prev_players : option Q;
  player_diff : option Q;
  h_pct_change : option Q
}.

Record top_game := TopGame {
  top_appid : Z;
  top_name : option string;
  total_players_k : option Q
}.

(** The [daily_totals] table expression: one row per (appid, run_date). *)
Definition daily_totals (appids : list Z) (d : database) : list daily_total :=
  let rows := List.filter (fun r => appid_in appids (p_appid r)) (player_count d) in
  map (fun k : Z * date =>
         let group :=
           List.filter (fun r => (p_appid r =? k.1)%Z && date_eqb (p_run_date r) k.2) rows in
         DailyTotal k.1 k.2 (sum_k (map p_current_players group)))
      (remove_dups (map (fun r => (p_appid r, p_run_date r)) rows)).

Definition daily_select (j : daily_total * option Q) : daily_trend :=
  let '(r, before) := j in
  DailyTrend (dt_appid r) (dt_run_date r) (dt_players_k r) before
    (player_diff_of (dt_players_k r) before)
    (pct_change_of (dt_players_k r) before).

Definition hourly_select (j : player_row * option Q) : hourly_trend :=
  let '(r, before) := j in
  HourlyTrend (p_appid r) (p_run_date r) (p_run_hour r) (p_current_players r) before
    (player_diff_of (p_current_players r) before)
    (pct_change_of (p_current_players r) before).

(** Order of [run_date, run_hour]. *)
Definition date_hour_leb (d1 : date) (h1 : Z) (d2 : date) (h2 : Z) : bool :=
  if date_eqb d1 d2 then (h1 <=? h2)%Z else date_leb d1 d2.

Definition top_20_sql : string := "SELECT pa.appid, gc.name, ROUND(SUM(pa.current_players) / 1000) as total_players_k FROM player_count pa LEFT JOIN games_cleaned gc ON pa.appid = gc.appid WHERE pa.run_date = %s GROUP BY pa.appid, gc.name ORDER BY total_players_k DESC LIMIT 20".

Definition trends_sql : string := "WITH daily_totals AS (...) SELECT appid, run_date, players_k, LAG(players_k) OVER (PARTITION BY appid ORDER BY run_date) AS prev_players_k, ... FROM daily_totals ORDER BY appid, run_date".

Definition hourly_sql : string := "SELECT appid, run_date, run_hour, current_players, LAG(current_players) OVER (PARTITION BY appid ORDER BY run_date, run_hour) AS prev_players, ... FROM player_count WHERE appid IN (...) ORDER BY appid, run_date, run_hour".

Section PlayerCountQueries.
Context {E : Engine}.

(** [LAG(value) OVER (PARTITION BY appid ORDER BY le)] on every row. *)
Definition lag_over {A} (appid : A -> Z) (le : A -> A -> bool)
    (value : A -> option Q) (rows : list A) : list (A * option Q) :=
  flat_map
    (fun k => lag value None (order_by le (List.filter (fun r => (appid r =? k)%Z) rows)))
    (remove_dups (map appid rows)).

Definition trends_query (appids : list Z) (d : database) : list daily_trend :=
  order_by
    (fun x y => if (d_appid x =? d_appid y)%Z then date_leb (d_run_date x) (d_run_date y)
                else (d_appid x <=? d_appid y)%Z)
    (map daily_select
       (lag_over dt_appid
          (fun x y => date_leb (dt_run_date x) (dt_run_date y))
          dt_players_k
          (daily_totals appids d))).

Definition fetch_player_count_trends (conn : connection) (appids : list Z)
    : ui (list daily_trend) :=
  match appids with
  | [] => ret []
  | _ =>
      try_except_Error
        (do result <-
           read_sql conn trends_sql [PInts appids]
             (fun d => Rows (trends_query appids d));
         ret result)
        (fun e =>
           run st_error ("Error fetching player count trends: " ++ e)%string;
           ret [])
  end.

Definition hourly_query (appids : list Z) (d : database) : list hourly_trend :=
  order_by
    (fun x y => if (h_appid x =? h_appid y)%Z
                then date_hour_leb (h_run_date x) (h_run_hour x) (h_run_date y) (h_run_hour y)
                else (h_appid x <=? h_appid y)%Z)
    (map hourly_select
       (lag_over p_appid
          (fun x y => date_hour_leb (p_run_date x) (p_run_hour x) (p_run_date y) (p_run_hour y))
          p_current_players
          (List.filter (fun r => appid_in appids (p_appid r)) (player_count d)))).

Definition fetch_player_count_trends_hourly (conn : connection) (appids : list Z)
    : ui (list hourly_trend) :=
  match appids with
  | [] => ret []
  | _ =>
      try_except_Error
        (do result <-
           read_sql conn hourly_sql [PInts appids]
             (fun d => Rows (hourly_query appids d));
         ret result)
        (fun e =>
           run st_error ("Error fetching hourly player count trends: " ++ e)%string;
           ret [])
  end.

(** The aggregation of [fetch_top_20_games], before [ORDER BY] and
    [LIMIT]: one row per (pa.appid, gc.name) of the join. *)
Definition top_20_candidates (run_date : date) (d : database) : list top_game :=
  let joined :=
    List.filter (fun j : player_row * option games_row => date_eqb (p_run_date j.1) run_date)
      (left_join (fun pa gc => (p_appid pa =? g_appid gc)%Z)
         (player_count d) (games_cleaned d)) in
  let key (j : player_row * option games_row) := (p_appid j.1, g_name <$> j.2) in
  map (fun k : Z * option string =>
         let group := List.filter (fun j => bool_decide (key j = k)) joined in
         TopGame k.1 k.2 (sum_k (map (fun j => p_current_players j.1) group)))
      (remove_dups (map key joined)).

Definition top_20_query (run_date : date) (d : database) : list top_game :=
  take 20
    (order_by (fun x y => desc_nulls_last (total_players_k x) (total_players_k y))
       (top_20_candidates run_date d)).

Definition fetch_top_20_games (conn : connection) (run_date : date)
    : ui (list top_game) :=
  try_except_Error
    (do result <-
       read_sql conn top_20_sql [PDate run_date]
         (fun d => Rows (top_20_query run_date d));
     ret result)
    (fun e =>
       run st_error ("Error fetching top 20 games: " ++ e)%string;
       ret []).

End PlayerCountQueries.

(** ** Price against review sentiment *)

Record price_row := PriceRow {
  ps_appid : Z;
  ps_name : option string;
  price_usd : option Q;
  positive_reviews : option Q;
  negative_reviews : option Q;
  ps_current_players : option Q
}.

(** A row of [data] once the page has added its two columns. *)
Record priced := Priced {
  ps_row : price_row;
  total_reviews : option Q;
  sentiment_pct : option Q
}.

(** [Series.round(digits)]: half to even. *)
Definition round_half_even (digits : Z) (x : Q) : Q :=
  let scale := inject_Z (10 ^ digits) in
  let y := x * scale in
  let f := Qfloor y in
  let r := y - inject_Z f in
  let n := if Qlt_bool r (1 # 2) then f
           else if Qlt_bool (1 # 2) r then (f + 1)%Z
           else if Z.even f then f else (f + 1)%Z in
  Qred (inject_Z n / scale).

Definition nan_round (digits : Z) (a : option Q) : option Q :=
  match a with
  | Some x => Some (round_half_even digits x)
  | None => None
  end.

(** Column arithmetic; a division by zero is [NaN] here (the query
    keeps no row without reviews, so the infinities of pandas do not
    arise). *)
Definition nan_add : option Q -> option Q -> option Q := sql_add.
Definition nan_mul : option Q -> option Q -> option Q := sql_mul.
Definition nan_div : option Q -> option Q -> option Q := sql_div.

(** [x >= y] and [x <= y]: false as soon as one side is [NaN]. *)
Definition nan_ge (x y : option Q) : bool :=
  match x, y with Some a, Some b => Qle_bool b a | _, _ => false end.
Definition nan_le (x y : option Q) : bool :=
  match x, y with Some a, Some b => Qle_bool a b | _, _ => false end.

(** [Series.quantile(q)]: [NaN] skipped, linear interpolation between
    the two order statistics around position [q * (n - 1)]. *)
Definition quantile (q : Q) (col : list (option Q)) : option Q :=
  let vs := stable_sort Qle_bool (non_null col) in
  match vs with
  | [] => None
  | v0 :: _ =>
      let pos := q * inject_Z (Z.of_nat (length vs - 1)) in
      let lo := Z.to_nat (Qfloor pos) in
      let frac := pos - inject_Z (Qfloor pos) in
      let a := nth lo vs v0 in
      let b := nth (S lo) vs a in
      Some (Qred (a + (b - a) * frac))
  end.

(** [data['total_reviews'] = ...; data['sentiment_pct'] = ...]. *)
Definition add_sentiment (r : price_row) : priced :=
  let total := nan_add (positive_reviews r) (negative_reviews r) in
  Priced r total
    (nan_round 1 (nan_mul (nan_div (positive_reviews r) total) (Some 100))).

Definition price_of (r : priced) : option Q := price_usd (ps_row r).

(** Bargains: high sentiment and low price. *)
Definition bargains (data : list priced) : list priced :=
  let bargain_threshold_sentiment := quantile (75 # 100) (map sentiment_pct data) in
  let bargain_threshold_price := quantile (25 # 100) (map price_of data) in
  List.filter
    (fun r => nan_ge (sentiment_pct r) bargain_threshold_sentiment
              && nan_le (price_of r) bargain_threshold_price)
    data.

(** Overpriced: low sentiment and high price. *)
Definition overpriced (data : list priced) : list priced :=
  let overpriced_threshold_sentiment := quantile (25 # 100) (map sentiment_pct data) in
  let overpriced_threshold_price := quantile (75 # 100) (map price_of data) in
  List.filter
    (fun r => nan_le (sentiment_pct r) overpriced_threshold_sentiment
              && nan_ge (price_of r) overpriced_threshold_price)
    data.

Definition price_sql : string := "SELECT appid, MAX(name) as name, MAX(price_usd) as price_usd, SUM(positive_reviews) as positive_reviews, SUM(negative_reviews) as negative_reviews, MAX(current_players) as current_players FROM games_cleaned WHERE run_date = %s AND price_usd > 0 GROUP BY appid HAVING (SUM(positive_reviews) + SUM(negative_reviews)) >= 10 ORDER BY price_usd DESC".

Section PriceQueries.
Context {E : Engine}.

Definition price_query (run_date : date) (d : database) : list price_row :=
  let rows :=
    List.filter
      (fun r => date_eqb (g_run_date r) run_date && nan_gt (g_price_usd r) 0)
      (games_cleaned d) in
  let groups :=
    map (fun appid =>
           let group := List.filter (fun r => (g_appid r =? appid)%Z) rows in
           PriceRow appid
             (max_string (map g_name group))
             (sql_max (map g_price_usd group))
             (sql_sum (map g_positive_reviews group))
             (sql_sum (map g_negative_reviews group))
             (sql_max (map g_current_players group)))
        (remove_dups (map g_appid rows)) in
  order_by (fun x y => desc_nulls_last (price_usd x) (price_usd y))
    (List.filter
       (fun r => nan_ge (sql_add (positive_reviews r) (negative_reviews r)) (Some 10))
       groups).

Definition fetch_price_sentiment_data (conn : connection) (run_date : date)
    : ui (list price_row) :=
  try_except_Error
    (do result <-
       read_sql conn price_sql [PDate run_date]
         (fun d => Rows (price_query run_date d));
     ret result)
    (fun e =>
       run st_error ("Error fetching price sentiment data: " ++ e)%string;
       ret []).

(** The two lists behind the "Bargain Picks" and "Potentially
    Overpriced" sections of [show_price_vs_review_sentiment]. *)
Definition show_price_vs_review_sentiment (conn : connection) (selected_date : date)
    : ui (list priced * list priced) :=
  do data <- fetch_price_sentiment_data conn selected_date;
  match data with
  | [] =>
      run st_warning ("⚠️ No data available for " ++ isoformat selected_date)%string;
      ret ([], [])
  | _ =>
      let data := map add_sentiment data in
      ret (bargains data, overpriced data)
  end.

End PriceQueries.

(** ** The counts above the momentum tabs *)

(** [len(momentum_df[momentum_df['status'] == s])]. *)
Definition count_status (s : status) (df : list classified) : nat :=
  length (List.filter (fun c => status_eqb (c_status c) s) df).

(** ** The dates of the date selector ([dashboard.py]) *)

Definition dates_sql : string := "SELECT DISTINCT run_date FROM games_cleaned ORDER BY run_date DESC".

Definition all_games_sql : string := "SELECT DISTINCT appid, MAX(name) as name FROM games_cleaned WHERE run_date = %s GROUP BY appid ORDER BY appid".

Section SelectorQueries.
Context {E : Engine}.

Definition dates_query (d : database) : list date :=
  order_by (fun x y => date_leb y x)
    (remove_dups (map g_run_date (games_cleaned d))).

(** [result['run_date'].tolist() if not result.empty else []]. *)
Definition fetch_available_dates (conn : connection) : ui (list date) :=
  try_except_Error
    (do result <- read_sql conn dates_sql [] (fun d => Rows (dates_query d));
     ret (match result with [] => [] | _ => result end))
    (fun e =>
       run st_error ("Error fetching dates: " ++ e)%string;
       ret []).

(** The games of a date, for the selector of the hourly page: one row
    per appid, in the order of the appids. *)
Definition all_games_query (run_date : date) (d : database) : list (Z * option string) :=
  let rows := List.filter (fun r => date_eqb (g_run_date r) run_date) (games_cleaned d) in
  order_by (fun x y => (x.1 <=? y.1)%Z)
    (remove_dups
       (map (fun appid =>
               let group := List.filter (fun r => (g_appid r =? appid)%Z) rows in
               (appid, max_string (map g_name group)))
            (remove_dups (map g_appid rows)))).

Definition fetch_all_games (conn : connection) (run_date : date)
    : ui (list (Z * option string)) :=
  try_except_Error
    (do result <-
       read_sql conn all_games_sql [PDate run_date]
         (fun d => Rows (all_games_query run_date d));
     ret result)
    (fun e =>
       run st_error ("Error fetching games: " ++ e)%string;
       ret []).

End SelectorQueries.

(** ** The game selectors of the player-count pages

    A Python dictionary is the list of its items in insertion order; a
    key set again keeps its place and takes the new value. A lookup of
    a missing key ([KeyError]) and a comparison with [None] in [sorted]
    ([TypeError]) are [None]: the page stops there. *)

Fixpoint dict_set {K V} `{EqDecision K} (k : K) (v : V) (d : list (K * V))
    : list (K * V) :=
  match d with
  | [] => [(k, v)]
  | (k', v') :: rest =>
      if decide (k = k') then (k, v) :: rest else (k', v') :: dict_set k v rest
  end.

Fixpoint dict_get {K V} `{EqDecision K} (k : K) (d : list (K * V)) : option V :=
  match d with
  | [] => None
  | (k', v') :: rest => if decide (k = k') then Some v' else dict_get k rest
  end.

(** [{k: v for k, v in items}]. *)
Definition dict_of {K V} `{EqDecision K} (items : list (K * V)) : list (K * V) :=
  fold_left (fun d kv => dict_set kv.1 kv.2 d) items [].

(** [{row['name']: row['appid'] for _, row in games.iterrows()}] on the
    (appid, name) pairs of the rows. *)
Definition game_options (games : list (Z * option string)) : list (option string * Z) :=
  dict_of (map (fun r => (r.2, r.1)) games).

(** [sorted(list(game_options.keys()))]; a [None] among two names or
    more cannot be compared. *)
Definition game_names (options : list (option string * Z))
    : option (list (option string)) :=
  match map fst options with
  | [] => Some []
  | [name] => Some [name]
  | names => (fun l => map Some (stable_sort String.leb l)) <$> mapM id names
  end.

(** [game_names[:10] if len(game_names) >= 10 else game_names[:5]]. *)
Definition default_games (names : list (option string)) : list (option string) :=
  if (10 <=? length names)%nat then take 10 names else take 5 names.

(** [[game_options[game] for game in selected_games]]. *)
Definition selected_appids (options : list (option string * Z))
    (selected_games : list (option string)) : option (list Z) :=
  mapM (fun game => dict_get game options) selected_games.

(** [{v: k for k, v in game_options.items()}]. *)
Definition appid_to_name (options : list (option string * Z)) : list (Z * option string) :=
  dict_of (map (fun kv => (kv.2, kv.1)) options).

(** ** Sample tables *)

Definition sample_day : date := Date 2024 3 1.

Definition sample_trending : database :=
  Database []
    [TrendingRow 1 "A" sample_day 0; TrendingRow 2 "B" sample_day 0;
     TrendingRow 2 "B" (Date 2024 2 29) 23; TrendingRow 3 "C" (Date 2024 2 29) 23]
    [].

Definition sample_games : database :=
  Database
    [GamesRow 1 "A" sample_day 2 (Some 7000) (Some 90) (Some 10) (Some 5) (Some 1000);
     GamesRow 1 "A" sample_day 14 (Some 9000) (Some 90) (Some 10) (Some 5) (Some 400);
     GamesRow 2 "B" sample_day 3 (Some 5000) (Some 30) (Some 30) (Some 20) (Some 100)]
    [] [].

Definition sample_players : database :=
  Database [] []
    [PlayerRow 1 sample_day 0 (Some 3000); PlayerRow 1 sample_day 1 (Some 4000);
     PlayerRow 1 (Date 2024 3 2) 1 (Some 9000)].

Definition sample_selector : list (Z * option string) :=
  [(10%Z, Some "Dota 2"); (20%Z, Some "Apex"); (30%Z, Some "Dota 2")].

(** * Properties *)

(** ** Rationals and nullable values *)

Lemma Qlt_bool_iff (x y : Q) : Qlt_bool x y = true <-> x < y.
Proof.
  unfold Qlt_bool. rewrite negb_true_iff.
  split.
  - intros H. apply Qnot_le_lt. intros Hle.
    apply Qle_bool_iff in Hle. congruence.
  - intros H. destruct (Qle_bool y x) eqn:Hb; [|reflexivity].
    apply Qle_bool_iff in Hb. exfalso. apply (Qlt_not_le _ _ H Hb).
Qed.

Lemma desc_nulls_last_total (x y : option Q) :
  desc_nulls_last x y = true \/ desc_nulls_last y x = true.
Proof.
  destruct x as [a|], y as [b|]; simpl; auto.
  destruct (Qle_bool b a) eqn:Hba; [now left|right].
  apply Qle_bool_iff. apply Qlt_le_weak. apply Qlt_bool_iff.
  unfold Qlt_bool. now rewrite Hba.
Qed.

Lemma desc_nulls_last_trans (x y z : option Q) :
  desc_nulls_last x y = true -> desc_nulls_last y z = true ->
  desc_nulls_last x z = true.
Proof.
  destruct x as [a|], y as [b|], z as [c|]; simpl; try congruence.
  rewrite !Qle_bool_iff. intros H1 H2. now apply Qle_trans with b.
Qed.

(** ** Movement of the top 100 *)

(** C4. The movement sets are the new entries (current minus previous),
    the stayers (current and previous) and the removals (previous minus
    current); they are pairwise disjoint and together make up every id of
    either hour. *)
Theorem categorize_partition (current_ids previous_ids : gset Z) :
  let '(appeared, held, disappeared) := categorize current_ids previous_ids in
  appeared = current_ids ∖ previous_ids
  /\ held = current_ids ∩ previous_ids
  /\ disappeared = previous_ids ∖ current_ids
  /\ appeared ## held
  /\ appeared ## disappeared
  /\ held ## disappeared
  /\ appeared ∪ held ∪ disappeared = current_ids ∪ previous_ids.
Proof.
  unfold categorize.
  split; [reflexivity|]. split; [reflexivity|]. split; [reflexivity|].
  split; [|split; [|split]].
  - intros x. rewrite elem_of_difference, elem_of_intersection. tauto.
  - intros x. rewrite !elem_of_difference. tauto.
  - intros x. rewrite elem_of_difference, elem_of_intersection. tauto.
  - apply set_eq. intros x.
    rewrite !elem_of_union, !elem_of_difference, elem_of_intersection.
    destruct (decide (x ∈ current_ids)), (decide (x ∈ previous_ids)); tauto.
Qed.

(** Whatever [fetch_top_100_movement_data] returns, its three sets are
    the categories of the ids of the two frames it returns. *)
Lemma movement_sets (conn : connection) (run_date : date) (run_hour : Z)
    (w w' : world) (m : movement) :
  fetch_top_100_movement_data conn run_date run_hour w = (Returned m, w') ->
  (rising m, holding m, falling m)
  = categorize (appid_set (current_df m)) (appid_set (prev_df m)).
Proof.
  unfold fetch_top_100_movement_data, try_except_Error, bind, read_sql,
    previous_window, ret, raise, st_error.
  destruct (fault conn (length (sent w))) as [[msg|text]|]; simpl;
    [intros [= <- <-]; reflexivity | discriminate |].
  destruct (run_hour - 1 <? 0)%Z.
  - destruct (minus_one_day run_date) as [pd|]; simpl; [|discriminate].
    rewrite length_app; simpl.
    destruct (fault conn _) as [[msg|text]|]; simpl;
      [intros [= <- <-]; reflexivity | discriminate | intros [= <- <-]; reflexivity].
  - simpl. rewrite length_app; simpl.
    destruct (fault conn _) as [[msg|text]|]; simpl;
      [intros [= <- <-]; reflexivity | discriminate | intros [= <- <-]; reflexivity].
Qed.

(** ** The hour before *)

Lemma days_in_month_bounds (y m : Z) : (28 <= days_in_month y m <= 31)%Z.
Proof.
  unfold days_in_month.
  destruct (m =? 2)%Z; [destruct (is_leap y); lia|].
  destruct ((m =? 4) || (m =? 6) || (m =? 9) || (m =? 11))%Z; lia.
Qed.

Lemma valid_date_spec (d : date) :
  valid_date d = true <->
  (1 <= year d <= 9999 /\ 1 <= month d <= 12
   /\ 1 <= day d <= days_in_month (year d) (month d))%Z.
Proof.
  unfold valid_date. rewrite !andb_true_iff, !Z.leb_le. tauto.
Qed.

(** Away from [date.min], [d - timedelta(days=1)] is the calendar day
    before [d]. *)
Lemma minus_one_day_previous (d : date) :
  valid_date d = true -> d <> date_min ->
  exists p, minus_one_day d = Some p /\ previous_calendar_day p d.
Proof.
  intros Hv Hmin. apply valid_date_spec in Hv.
  destruct d as [y m dd]; simpl in Hv.
  unfold minus_one_day; simpl.
  destruct (1 <? dd)%Z eqn:Hd; [apply Z.ltb_lt in Hd | apply Z.ltb_ge in Hd].
  - eexists; split; [reflexivity|].
    split; [|split].
    + apply valid_date_spec; simpl. lia.
    + unfold date_lt; simpl. lia.
    + intros [ey em ed] He Hlt. apply valid_date_spec in He. simpl in He.
      unfold date_lt in Hlt; simpl in Hlt.
      assert (Hc : (ey = y /\ em = m /\ ed = dd - 1)%Z
                   \/ date_lt (Date ey em ed) (Date y m (dd - 1))).
      { unfold date_lt; simpl. lia. }
      destruct Hc as [(-> & -> & ->)|Hc]; [now left | now right].
  - destruct (1 <? m)%Z eqn:Hm; [apply Z.ltb_lt in Hm | apply Z.ltb_ge in Hm].
    + eexists; split; [reflexivity|].
      pose proof (days_in_month_bounds y (m - 1)) as Hb.
      split; [|split].
      * apply valid_date_spec; simpl. lia.
      * unfold date_lt; simpl. lia.
      * intros [ey em ed] He Hlt. apply valid_date_spec in He. simpl in He.
        unfold date_lt in Hlt; simpl in Hlt.
        destruct (Z.eq_dec ey y) as [->|Hy];
          [destruct (Z.eq_dec em (m - 1)%Z) as [->|Hem]|].
        -- destruct (Z.eq_dec ed (days_in_month y (m - 1))) as [->|Hed];
             [now left|right; unfold date_lt; simpl; lia].
        -- right; unfold date_lt; simpl; lia.
        -- right; unfold date_lt; simpl; lia.
    + destruct (1 <? y)%Z eqn:Hy; [apply Z.ltb_lt in Hy | apply Z.ltb_ge in Hy].
      * eexists; split; [reflexivity|].
        split; [|split].
        -- apply valid_date_spec; simpl.
           change (days_in_month (y - 1) 12) with 31%Z. lia.
        -- unfold date_lt; simpl. lia.
        -- intros [ey em ed] He Hlt. apply valid_date_spec in He. simpl in He.
           unfold date_lt in Hlt; simpl in Hlt.
           pose proof (days_in_month_bounds ey em) as Hb.
           destruct (Z.eq_dec ey (y - 1)%Z) as [->|Hey];
             [destruct (Z.eq_dec em 12%Z) as [->|Hem]|].
           ++ change (days_in_month (y - 1) 12) with 31%Z in He.
              destruct (Z.eq_dec ed 31%Z) as [->|Hed];
                [now left|right; unfold date_lt; simpl; lia].
           ++ right; unfold date_lt; simpl; lia.
           ++ right; unfold date_lt; simpl; lia.
      * exfalso. apply Hmin. unfold date_min. f_equal; lia.
Qed.

(** C8. [fetch_top_100_movement_data] compares the hour it is given with
    the hour before: from hour 0 it asks for hour 23 of the calendar day
    before, from an hour h > 0 for hour h - 1 of the same date. (At hour
    0 the date must have a day before it: [date.min] has none.) *)
Theorem previous_hour_is_resolved (d : database) (run_date : date) (run_hour : Z) :
  (0 <= run_hour)%Z ->
  (run_hour = 0%Z -> valid_date run_date = true /\ run_date <> date_min) ->
  exists prev_date prev_hour,
    sent (fetch_top_100_movement_data (healthy d) run_date run_hour fresh).2
    = [(top_100_sql, [PDate run_date; PInt run_hour]);
       (top_100_sql, [PDate prev_date; PInt prev_hour])]
    /\ (run_hour = 0%Z -> previous_calendar_day prev_date run_date /\ prev_hour = 23%Z)
    /\ ((0 < run_hour)%Z -> prev_date = run_date /\ prev_hour = (run_hour - 1)%Z).
Proof.
  intros Hh H0.
  unfold fetch_top_100_movement_data, try_except_Error, bind, read_sql,
    previous_window, ret, raise, healthy; simpl.
  destruct (run_hour - 1 <? 0)%Z eqn:Hlt;
    [apply Z.ltb_lt in Hlt | apply Z.ltb_ge in Hlt].
  - assert (run_hour = 0%Z) as Hz by lia.
    destruct (H0 Hz) as [Hv Hmin].
    destruct (minus_one_day_previous run_date Hv Hmin) as (p & Hp & Hprev).
    rewrite Hp; simpl.
    exists p, 23%Z. split; [reflexivity|]. split; [auto | lia].
  - simpl. exists run_date, (run_hour - 1)%Z.
    split; [reflexivity|]. split; [lia | auto].
Qed.

Lemma previous_hour_is_resolved_witness :
  exists prev_date prev_hour,
    sent (fetch_top_100_movement_data
            (healthy (Database [] [] [])) (Date 2024 3 1) 0 fresh).2
    = [(top_100_sql, [PDate (Date 2024 3 1); PInt 0]);
       (top_100_sql, [PDate prev_date; PInt prev_hour])]
    /\ (0%Z = 0%Z -> previous_calendar_day prev_date (Date 2024 3 1) /\ prev_hour = 23%Z)
    /\ ((0 < 0)%Z -> prev_date = Date 2024 3 1 /\ prev_hour = (0 - 1)%Z).
Proof.
  apply (previous_hour_is_resolved (Database [] [] []) (Date 2024 3 1) 0).
  - lia.
  - intros _. split; [reflexivity | discriminate].
Defined.

(** The day before the first of March of a leap year. *)
Example leap_day_before : minus_one_day (Date 2024 3 1) = Some (Date 2024 2 29).
Proof. reflexivity. Qed.

(** At hour 0 of [date.min] the subtraction overflows, outside of what
    the function catches. *)
Example no_day_before_date_min :
  (fetch_top_100_movement_data (healthy (Database [] [] [])) date_min 0 fresh).1
  = Raised (OverflowError "date value out of range").
Proof. reflexivity. Qed.

(** ** Failures of the data source *)

Section Failures.
Context {E : Engine}.

(** A healthy connection hands back the rows of the statement. *)
Lemma fetch_top_trending_games_data_healthy (d : database) (run_date : date)
    (limit : Z) (rows : list trending_game) (w : world) :
  trending_query run_date limit d = Rows rows ->
  (fetch_top_trending_games_data (healthy d) run_date limit w).1 = Returned rows.
Proof.
  intros Hq.
  unfold fetch_top_trending_games_data, try_except_Error, bind, read_sql, ret, healthy.
  simpl. now rewrite Hq.
Qed.


(** A failure of the second statement of the movement operation leaves
    nothing of the first answer in the result: behind a connection that
    went down the operation returns its empty fallback and shows the
    error; after a failed execution it raises the [DatabaseError] of
    pandas and returns nothing. *)
Lemma movement_is_never_partial (conn : connection) (w : world) (f : failure)
    (run_date prev_date : date) (run_hour prev_hour : Z) :
  fault conn (length (sent w)) = None ->
  fault conn (S (length (sent w))) = Some f ->
  (forall w0, previous_window run_date run_hour w0 = (Returned (prev_date, prev_hour), w0)) ->
  fetch_top_100_movement_data conn run_date run_hour w
  = match f with
    | Disconnected msg =>
        (Returned no_movement,
         World (sent w ++ [(top_100_sql, [PDate run_date; PInt run_hour]);
                           (top_100_sql, [PDate prev_date; PInt prev_hour])])
               (shown w ++ [StError ("Error fetching movement data: " ++ msg)%string]))
    | ExecuteFailed text =>
        (Raised (DatabaseError text),
         World (sent w ++ [(top_100_sql, [PDate run_date; PInt run_hour]);
                           (top_100_sql, [PDate prev_date; PInt prev_hour])])
               (shown w))
    end.
Proof.
  intros H1 H2 Hp.
  unfold fetch_top_100_movement_data, try_except_Error, bind, read_sql, ret, st_error.
  rewrite H1; simpl. rewrite Hp; simpl.
  rewrite length_app; simpl. rewrite Nat.add_1_r, H2; simpl.
  rewrite <- app_assoc. now destruct f.
Qed.

(** C10. With no appid to look for, the two trend operations return an
    empty frame at once: nothing is sent to the data source and nothing
    is shown, whatever the state of the connection. *)
Theorem no_appids_no_query (conn : connection) (w : world) :
  fetch_player_count_trends conn [] w = (Returned [], w)
  /\ fetch_player_count_trends_hourly conn [] w = (Returned [], w).
Proof. split; reflexivity. Qed.

(** With an appid the daily operation does send its statement. *)
Lemma some_appids_one_query (conn : connection) (appid : Z) (appids : list Z) (w : world) :
  sent (fetch_player_count_trends conn (appid :: appids) w).2
  = sent w ++ [(trends_sql, [PInts (appid :: appids)])].
Proof.
  unfold fetch_player_count_trends, try_except_Error, bind, read_sql, ret, st_error.
  destruct (fault conn (length (sent w))) as [[msg|text]|]; reflexivity.
Qed.

End Failures.



(** ** Momentum classification *)

(** C3. With the thresholds +200 and -200 a delta is Rising exactly when
    it is above 200 and Falling exactly when it is below -200; 200 and
    -200 themselves, like every value between them and like a missing
    value, are Stable. *)
Theorem momentum_status_strict (x : option Q) :
  (momentum_status x = Rising <-> exists q, x = Some q /\ 200 < q)
  /\ (momentum_status x = Falling <-> exists q, x = Some q /\ q < -200)
  /\ (momentum_status x = Stable <->
      x = None \/ exists q, x = Some q /\ -200 <= q <= 200)
  /\ momentum_status (Some 200) = Stable
  /\ momentum_status (Some (-200)) = Stable.
Proof.
  assert (Hcases : forall q : Q,
             (200 < q /\ momentum_status (Some q) = Rising)
             \/ (q < -200 /\ momentum_status (Some q) = Falling)
             \/ (-200 <= q <= 200 /\ momentum_status (Some q) = Stable)).
  { intros q. unfold momentum_status, _RISING_THRESHOLD, _FALLING_THRESHOLD; simpl.
    destruct (Qlt_bool 200 q) eqn:H1.
    - left. split; [now apply Qlt_bool_iff | reflexivity].
    - destruct (Qlt_bool q (-200)) eqn:H2.
      + right; left. split; [now apply Qlt_bool_iff | reflexivity].
      + right; right. split; [|reflexivity].
        split; apply Qnot_lt_le; intros Hlt; apply Qlt_bool_iff in Hlt; congruence. }
  repeat split.
  - destruct x as [q|]; [|discriminate].
    intros Hs. exists q. split; [reflexivity|].
    destruct (Hcases q) as [[H _]|[[_ H]|[_ H]]]; [exact H|congruence..].
  - intros (q & -> & Hq).
    destruct (Hcases q) as [[_ H]|[[H _]|[H _]]]; [exact H|lra..].
  - destruct x as [q|]; [|discriminate].
    intros Hs. exists q. split; [reflexivity|].
    destruct (Hcases q) as [[_ H]|[[H _]|[_ H]]]; [congruence|exact H|congruence].
  - intros (q & -> & Hq).
    destruct (Hcases q) as [[H _]|[[_ H]|[H _]]]; [lra|exact H|lra].
  - destruct x as [q|]; [|now left].
    intros Hs. right. exists q. split; [reflexivity|].
    destruct (Hcases q) as [[_ H]|[[_ H]|[H _]]]; [congruence..|exact H].
  - intros [->|(q & -> & Hq)]; [reflexivity|].
    destruct (Hcases q) as [[H _]|[[H _]|[_ H]]]; [lra..|exact H].
Qed.

(** Every classified row carries a delta, and its status is the one of
    that delta. *)
Lemma classify_rows (momentum_df : list momentum_row) (c : classified) :
  In c (classify momentum_df) ->
  exists r, In r momentum_df
            /\ c_row c = fillna_delta r
            /\ c_status c = momentum_status (fillna 0 (delta r))
            /\ exists q, delta (c_row c) = Some q.
Proof.
  unfold classify. rewrite in_map_iff. intros (r & <- & Hr).
  exists r. simpl. repeat split; [exact Hr|].
  destruct (delta r) as [q|]; simpl; eauto.
Qed.

(** ** The momentum join *)

Lemma filter_absent_key {B} (k : B -> Z) (x : Z) (l : list B) :
  ~ In x (map k l) -> List.filter (fun b => (x =? k b)%Z) l = [].
Proof.
  induction l as [|b l IH]; simpl; [reflexivity|].
  intros Hn. destruct (Z.eqb_spec x (k b)) as [->|Hne].
  - exfalso. apply Hn. now left.
  - apply IH. intros Hin. apply Hn. now right.
Qed.

Lemma filter_unique_key {B} (k : B -> Z) (x : Z) (l : list B) :
  List.NoDup (map k l) ->
  (length (List.filter (fun b => (x =? k b)%Z) l) <= 1)%nat.
Proof.
  induction l as [|b l IH]; simpl; [lia|].
  intros Hnd. apply List.NoDup_cons_iff in Hnd. destruct Hnd as [Hb Hnd].
  destruct (Z.eqb_spec x (k b)) as [->|Hne]; simpl.
  - rewrite (filter_absent_key k (k b) l Hb). simpl. lia.
  - now apply IH.
Qed.

Lemma left_join_In {A B} (on : A -> B -> bool) (l : list A) (r : list B)
    (a : A) (ob : option B) :
  In (a, ob) (left_join on l r) ->
  In a l
  /\ match ob with
     | Some b => In b r /\ on a b = true
     | None => forall b, In b r -> on a b = false
     end.
Proof.
  unfold left_join. rewrite in_flat_map. intros (a' & Ha' & Hin).
  destruct (List.filter (on a') r) as [|b0 bs] eqn:Hf.
  - destruct Hin as [[= <- <-]|[]]. split; [exact Ha'|].
    intros b Hb. destruct (on a' b) eqn:Hon; [|reflexivity].
    assert (In b (List.filter (on a') r)) as Hc by (apply filter_In; auto).
    rewrite Hf in Hc. destruct Hc.
  - apply in_map_iff in Hin. destruct Hin as (b & [= <- <-] & Hb).
    split; [exact Ha'|]. rewrite <- Hf in Hb. now apply filter_In in Hb.
Qed.

(** Against a right side with one row per key, a left join keeps the rows
    of its left side, each once and in order. *)
Lemma left_join_fst {A B} (ka : A -> Z) (kb : B -> Z) (l : list A) (r : list B) :
  List.NoDup (map kb r) ->
  map fst (left_join (fun a b => (ka a =? kb b)%Z) l r) = l.
Proof.
  intros Hnd. unfold left_join.
  induction l as [|a l IH]; [reflexivity|].
  cbn [flat_map]. rewrite map_app, IH.
  pose proof (filter_unique_key kb (ka a) r Hnd) as Hlen.
  destruct (List.filter (fun b => (ka a =? kb b)%Z) r) as [|b [|b' bs]];
    simpl in *; [reflexivity | reflexivity | lia].
Qed.

Lemma morning_appids (run_date : date) (h_start h_end : Z) (d : database) :
  map m_appid (morning run_date h_start h_end d)
  = remove_dups (map g_appid (List.filter (in_window run_date h_start h_end) (games_cleaned d))).
Proof. unfold morning. rewrite List.map_map. simpl. apply List.map_id. Qed.

Lemma afternoon_appids (run_date : date) (h_start h_end : Z) (d : database) :
  map a_appid (afternoon run_date h_start h_end d)
  = remove_dups (map g_appid (List.filter (in_window run_date h_start h_end) (games_cleaned d))).
Proof. unfold afternoon. rewrite List.map_map. simpl. apply List.map_id. Qed.

(** The ids of a window are the appids with a record in it. *)
Lemma window_appids (run_date : date) (h_start h_end : Z) (d : database) (a : Z) :
  In a (remove_dups (map g_appid (List.filter (in_window run_date h_start h_end) (games_cleaned d))))
  <-> exists r, In r (games_cleaned d)
                /\ in_window run_date h_start h_end r = true /\ g_appid r = a.
Proof.
  rewrite <- list_elem_of_In, elem_of_remove_dups, list_elem_of_In, in_map_iff.
  split.
  - intros (r & <- & Hr). apply filter_In in Hr. destruct Hr. eauto.
  - intros (r & Hr & Hw & <-). exists r. split; [reflexivity|]. apply filter_In; auto.
Qed.

Section Momentum.
Context {E : Engine}.
Variables (run_date : date) (morning_start morning_end afternoon_start afternoon_end : Z).
Variable d : database.

Let current := afternoon run_date afternoon_start afternoon_end d.
Let previous := morning run_date morning_start morning_end d.
Let out := momentum_query run_date morning_start morning_end afternoon_start afternoon_end d.

Lemma momentum_query_appids : Permutation (map mo_appid out) (map m_appid previous).
Proof.
  assert (Hnd : List.NoDup (map a_appid current)).
  { unfold current. rewrite afternoon_appids. apply NoDup_ListNoDup, NoDup_remove_dups. }
  pose proof (left_join_fst m_appid a_appid previous current Hnd) as Hfst.
  unfold out, momentum_query.
  etransitivity; [apply Permutation_map, order_by_Permutation|].
  rewrite List.map_map.
  apply Permutation_refl'.
  transitivity
    (map m_appid
       (map fst (left_join (fun m a => (m_appid m =? a_appid a)%Z) previous current)));
    [|now rewrite Hfst].
  rewrite List.map_map. apply map_ext. now intros [m a].
Qed.

Lemma momentum_query_rows (r : momentum_row) :
  In r out ->
  exists m, In m previous
    /\ mo_appid r = m_appid m
    /\ avg_morning r = m_avg_morning m
    /\ ((exists a, In a current /\ a_appid a = m_appid m
                   /\ avg_afternoon r = coalesce (a_avg_afternoon a) 0
                   /\ delta r = sql_sub (a_avg_afternoon a) (m_avg_morning m))
        \/ (~ In (m_appid m) (map a_appid current)
            /\ avg_afternoon r = Some 0 /\ delta r = None)).
Proof.
  unfold out, momentum_query. intros Hr.
  apply (Permutation_in _ (order_by_Permutation _ _ _)) in Hr.
  apply in_map_iff in Hr. destruct Hr as ([m oa] & <- & Hj).
  apply left_join_In in Hj. destruct Hj as [Hm Hoa].
  exists m. repeat split; [exact Hm|].
  destruct oa as [a|]; simpl.
  - left. exists a. destruct Hoa as [Ha Hon]. apply Z.eqb_eq in Hon.
    repeat split; auto.
  - right. repeat split. intros Hin. apply in_map_iff in Hin.
    destruct Hin as (a & Hk & Ha). specialize (Hoa a Ha).
    apply Z.eqb_neq in Hoa. congruence.
Qed.

End Momentum.

(** C1, as the code has it. The momentum query is a left join from the
    morning (previous) window: its result has exactly one record for
    every appid with a record in the morning window, and none for any
    other appid. An appid seen only in the morning keeps its record; an
    appid seen only in the afternoon (current) window has none. *)
Theorem momentum_records_are_the_morning_ones `{E : Engine} (run_date : date)
    (morning_start morning_end afternoon_start afternoon_end : Z) (d : database) :
  let out :=
    momentum_query run_date morning_start morning_end afternoon_start afternoon_end d in
  Permutation (map mo_appid out) (map m_appid (morning run_date morning_start morning_end d))
  /\ List.NoDup (map mo_appid out)
  /\ forall a, In a (map mo_appid out)
               <-> exists r, In r (games_cleaned d)
                             /\ in_window run_date morning_start morning_end r = true
                             /\ g_appid r = a.
Proof.
  intros out.
  pose proof (momentum_query_appids run_date morning_start morning_end
                afternoon_start afternoon_end d) as Hperm.
  fold out in Hperm.
  split; [exact Hperm|]. split.
  - apply (Permutation_NoDup (Permutation_sym Hperm)).
    rewrite morning_appids. apply NoDup_ListNoDup, NoDup_remove_dups.
  - intros a. rewrite <- window_appids, <- morning_appids.
    split; apply Permutation_in; [exact Hperm | exact (Permutation_sym Hperm)].
Qed.

(** C1, as the spec words it, fails: a game with records in the afternoon
    only is in one of the two windows and has no record in the result. *)
Lemma momentum_is_not_a_full_outer_join :
  let day := Date 2024 3 1 in
  let d :=
    Database
      [GamesRow 1 "A" day 2 None None None None (Some 1000);
       GamesRow 1 "A" day 14 None None None None (Some 400);
       GamesRow 3 "C" day 15 None None None None (Some 900)]
      [] [] in
  let out := momentum_query (E := stable_engine) day 1 12 13 23 d in
  ~ (forall a, In a (map mo_appid out)
               <-> In a (map a_appid (afternoon day 13 23 d))
                   \/ In a (map m_appid (morning day 1 12 d))).
Proof.
  intros day d out H. specialize (H 3%Z). vm_compute in H.
  destruct H as [_ H].
  destruct H as [H|[]]; [left; right; left; reflexivity | discriminate H].
Qed.

(** C2, as the code has it. A record whose appid has no afternoon
    (current) row leaves the query with a null delta, which the page
    replaces by 0 before it classifies: the delta shown is 0, the
    afternoon value shown is 0 and the status is Stable. *)
Theorem dropped_game_has_zero_delta `{E : Engine} (run_date : date)
    (morning_start morning_end afternoon_start afternoon_end : Z) (d : database)
    (c : classified) :
  In c (classify (momentum_query run_date morning_start morning_end
                    afternoon_start afternoon_end d)) ->
  ~ In (mo_appid (c_row c))
       (map a_appid (afternoon run_date afternoon_start afternoon_end d)) ->
  delta (c_row c) = Some 0
  /\ avg_afternoon (c_row c) = Some 0
  /\ c_status c = Stable.
Proof.
  intros Hc Habsent.
  apply classify_rows in Hc. destruct Hc as (r & Hr & Hrow & Hst & _).
  apply momentum_query_rows in Hr.
  destruct Hr as (m & _ & Hid & _ & [(a & Ha & Hk & _)|(_ & Haft & Hdelta)]).
  - exfalso. apply Habsent. rewrite Hrow. simpl. rewrite Hid, <- Hk.
    now apply in_map.
  - rewrite Hst, Hrow. simpl. rewrite Hdelta, Haft. auto.
Qed.

Lemma dropped_game_has_zero_delta_witness :
  let day := Date 2024 3 1 in
  let d := Database [GamesRow 2 "B" day 3 None None None None (Some 100)] [] [] in
  let c := Classified (MomentumRow 2 (Some "B") (Some 100) (Some 0) (Some 0)) Stable in
  delta (c_row c) = Some 0 /\ avg_afternoon (c_row c) = Some 0 /\ c_status c = Stable.
Proof.
  intros day d c.
  apply (dropped_game_has_zero_delta (E := stable_engine) day 1 12 13 23 d c).
  - vm_compute. left. reflexivity.
  - vm_compute. intros [].
Defined.

(** C2, as the spec words it, fails: a game seen in the morning only, at
    100 minutes, gets the delta 0, not -100. *)
Lemma dropped_game_delta_is_not_minus_previous :
  let day := Date 2024 3 1 in
  let d := Database [GamesRow 2 "B" day 3 None None None None (Some 100)] [] [] in
  classify (momentum_query (E := stable_engine) day 1 12 13 23 d)
  = [Classified (MomentumRow 2 (Some "B") (Some 100) (Some 0) (Some 0)) Stable]
  /\ ~ In 2%Z (map a_appid (afternoon day 13 23 d))
  /\ ~ (0 == - (100)).
Proof.
  split; [vm_compute; reflexivity|].
  split; [vm_compute; intros [] | intros H; discriminate H].
Qed.

Lemma unique_key_same_row {B} (k : B -> Z) (l : list B) (a b : B) :
  List.NoDup (map k l) -> In a l -> In b l -> k a = k b -> a = b.
Proof.
  induction l as [|x l IH]; simpl; [tauto|].
  intros Hnd Ha Hb Hk. apply List.NoDup_cons_iff in Hnd. destruct Hnd as [Hx Hnd].
  destruct Ha as [->|Ha], Hb as [->|Hb]; auto.
  - exfalso. apply Hx. rewrite Hk. now apply in_map.
  - exfalso. apply Hx. rewrite <- Hk. now apply in_map.
Qed.

(** With both windows present the delta is the afternoon average minus
    the morning one. *)
Lemma delta_of_both_windows `{E : Engine} (run_date : date)
    (morning_start morning_end afternoon_start afternoon_end : Z) (d : database)
    (r : momentum_row) (x y : Q) :
  In r (momentum_query run_date morning_start morning_end afternoon_start afternoon_end d) ->
  avg_morning r = Some x ->
  In (AfternoonRow (mo_appid r) (Some y))
     (afternoon run_date afternoon_start afternoon_end d) ->
  exists q, delta r = Some q /\ q == y - x.
Proof.
  intros Hr Hx Hy.
  pose proof (momentum_query_rows _ _ _ _ _ _ _ Hr) as (m & _ & Hid & Hm & Hcase).
  assert (Hnd : List.NoDup (map a_appid (afternoon run_date afternoon_start afternoon_end d))).
  { rewrite afternoon_appids. apply NoDup_ListNoDup, NoDup_remove_dups. }
  destruct Hcase as [(a & Ha & Hk & _ & Hd)|(Habs & _)].
  - assert (a = AfternoonRow (mo_appid r) (Some y)) as ->.
    { apply (unique_key_same_row a_appid _ _ _ Hnd Ha Hy). simpl. congruence. }
    simpl in Hd. rewrite <- Hm, Hx in Hd. simpl in Hd.
    eexists; split; [exact Hd|]. apply Qred_correct.
  - exfalso. apply Habs. rewrite <- Hid.
    change (mo_appid r) with (a_appid (AfternoonRow (mo_appid r) (Some y))).
    now apply in_map.
Qed.

(** ** Percent change against the value before *)

(** [ROUND(x, 2)] is within half a hundredth of [x]. *)
Lemma round_half_away_2_close (x : Q) : Qabs (round_half_away 2 x - x) <= 1 # 200.
Proof.
  unfold round_half_away. cbv zeta.
  change (inject_Z (10 ^ 2)) with 100.
  rewrite Qred_correct.
  apply Qabs_Qle_condition.
  set (y := x * 100).
  assert (Hx : x == y / 100) by (unfold y; field).
  destruct (Qle_bool 0 y).
  - pose proof (Qfloor_le (y + (1 # 2))) as H1.
    pose proof (Qlt_floor (y + (1 # 2))) as H2.
    rewrite inject_Z_plus in H2.
    set (n := inject_Z (Qfloor (y + (1 # 2)))) in *.
    change (inject_Z 1) with 1 in H2.
    rewrite Hx. clearbody n. clearbody y.
    unfold Qdiv. change (/ 100) with (1 # 100). split; lra.
  - pose proof (Qle_ceiling (y - (1 # 2))) as H1.
    pose proof (Qceiling_lt (y - (1 # 2))) as H2.
    unfold Z.sub in H2. rewrite inject_Z_plus in H2.
    set (n := inject_Z (Qceiling (y - (1 # 2)))) in *.
    change (inject_Z (- (1))) with (- (1)) in H2.
    rewrite Hx. clearbody n. clearbody y.
    unfold Qdiv. change (/ 100) with (1 # 100). split; lra.
Qed.

(** Equal rationals round to the same fraction. *)
Lemma round_half_away_Qeq (digits : Z) (x y : Q) :
  x == y -> round_half_away digits x = round_half_away digits y.
Proof.
  intros Hxy. unfold round_half_away.
  apply Qred_complete.
  assert (Hs : x * inject_Z (10 ^ digits) == y * inject_Z (10 ^ digits))
    by now rewrite Hxy.
  assert (Hb : Qle_bool 0 (x * inject_Z (10 ^ digits))
               = Qle_bool 0 (y * inject_Z (10 ^ digits))).
  { destruct (Qle_bool 0 (y * inject_Z (10 ^ digits))) eqn:Hy.
    - apply Qle_bool_iff. rewrite Hs. now apply Qle_bool_iff.
    - destruct (Qle_bool 0 (x * inject_Z (10 ^ digits))) eqn:Hx'; [|reflexivity].
      apply Qle_bool_iff in Hx'. rewrite Hs in Hx'. apply Qle_bool_iff in Hx'.
      congruence. }
  rewrite Hb. destruct (Qle_bool 0 (y * inject_Z (10 ^ digits))).
  - now rewrite Hs.
  - now rewrite Hs.
Qed.

Lemma pct_change_of_undefined (cur prev : option Q) :
  prev = None \/ (exists p, prev = Some p /\ p == 0) ->
  pct_change_of cur prev = None.
Proof.
  unfold pct_change_of.
  intros [->|(p & -> & Hp)].
  - now destruct cur.
  - simpl. apply Qeq_bool_iff in Hp. rewrite Hp.
    now destruct (sql_mul (sql_sub cur (Some p)) (Some 100)).
Qed.

Lemma pct_change_of_defined (c p : Q) :
  ~ p == 0 ->
  pct_change_of (Some c) (Some p) = Some (round_half_away 2 ((c - p) / p * 100))
  /\ Qabs (round_half_away 2 ((c - p) / p * 100) - (c - p) / p * 100) <= 1 # 200.
Proof.
  intros Hp. split; [|apply round_half_away_2_close].
  unfold pct_change_of. simpl.
  destruct (Qeq_bool p 0) eqn:Hb; [apply Qeq_bool_iff in Hb; contradiction|].
  simpl. rewrite Hb. simpl. f_equal. apply round_half_away_Qeq.
  rewrite !Qred_correct. field. exact Hp.
Qed.

Section Trends.
Context {E : Engine}.

Lemma trends_query_rows (appids : list Z) (d : database) (r : daily_trend) :
  In r (trends_query appids d) ->
  player_diff_k r = player_diff_of (players_k r) (prev_players_k r)
  /\ d_pct_change r = pct_change_of (players_k r) (prev_players_k r).
Proof.
  unfold trends_query. intros Hr.
  apply (Permutation_in _ (order_by_Permutation _ _ _)) in Hr.
  apply in_map_iff in Hr. destruct Hr as ([t before] & <- & _).
  split; reflexivity.
Qed.

Lemma hourly_query_rows (appids : list Z) (d : database) (r : hourly_trend) :
  In r (hourly_query appids d) ->
  player_diff r = player_diff_of (current_players r) (prev_players r)
  /\ h_pct_change r = pct_change_of (current_players r) (prev_players r).
Proof.
  unfold hourly_query. intros Hr.
  apply (Permutation_in _ (order_by_Permutation _ _ _)) in Hr.
  apply in_map_iff in Hr. destruct Hr as ([t before] & <- & _).
  split; reflexivity.
Qed.

(** C5, as the code has it. In every row of the daily and of the hourly
    trend the percent change is null when the value before is null or
    0; when the value before is present and not 0 it is
    (value - before) / before * 100 rounded to two decimals, half away
    from zero, so within 0.005 of the exact quotient. *)
Theorem pct_change_is_null_or_rounded (appids : list Z) (d : database) :
  (forall cur prev : option Q,
      (prev = None \/ (exists p, prev = Some p /\ p == 0) ->
       pct_change_of cur prev = None)
      /\ (forall c p, cur = Some c -> prev = Some p -> ~ p == 0 ->
          pct_change_of cur prev = Some (round_half_away 2 ((c - p) / p * 100))
          /\ Qabs (round_half_away 2 ((c - p) / p * 100) - (c - p) / p * 100)
             <= 1 # 200))
  /\ (forall r, In r (trends_query appids d) ->
                d_pct_change r = pct_change_of (players_k r) (prev_players_k r))
  /\ (forall r, In r (hourly_query appids d) ->
                h_pct_change r = pct_change_of (current_players r) (prev_players r)).
Proof.
  split; [|split].
  - intros cur prev. split.
    + apply pct_change_of_undefined.
    + intros c p -> -> Hp. now apply pct_change_of_defined.
  - intros r Hr. now apply trends_query_rows in Hr.
  - intros r Hr. now apply hourly_query_rows in Hr.
Qed.

End Trends.

(** C5, as the spec words it, fails on the exact quotient: from 3 players
    to 4 the hourly trend shows 33.33, not 100/3. *)
Lemma pct_change_is_not_the_exact_quotient :
  let day := Date 2024 3 1 in
  let d := Database [] []
             [PlayerRow 1 day 0 (Some 3); PlayerRow 1 day 1 (Some 4)] in
  map (fun r => (prev_players r, player_diff r, h_pct_change r))
      (hourly_query (E := stable_engine) [1%Z] d)
  = [(None, None, None); (Some 3, Some 1, Some (3333 # 100))]
  /\ ~ ((3333 # 100) == 1 / 3 * 100).
Proof.
  split; [vm_compute; reflexivity | intros H; discriminate H].
Qed.

(** [LAG] pairs every row of a partition with the value of the row
    before it. *)
Lemma lag_is_the_row_before {A} (value : A -> option Q) (before : option Q)
    (partition : list A) :
  lag value before partition = combine partition (before :: map value partition).
Proof.
  revert before. induction partition as [|r rest IH]; intros before; simpl;
    [reflexivity|].
  now rewrite IH.
Qed.

(** ** Top N *)

Lemma StronglySorted_app_inv {A} (R : A -> A -> Prop) (l1 l2 : list A) :
  StronglySorted R (l1 ++ l2) ->
  StronglySorted R l1 /\ StronglySorted R l2
  /\ forall x y, In x l1 -> In y l2 -> R x y.
Proof.
  induction l1 as [|a l1 IH]; simpl; intros Hs.
  - repeat split; [constructor | exact Hs | intros x y []].
  - apply StronglySorted_inv in Hs. destruct Hs as [Hs Ha].
    destruct (IH Hs) as (H1 & H2 & H12).
    rewrite List.Forall_forall in Ha.
    repeat split; [|exact H2|].
    + constructor; [exact H1|]. rewrite List.Forall_forall.
      intros x Hx. apply Ha. apply in_or_app. now left.
    + intros x y [<-|Hx] Hy; [|now apply H12].
      apply Ha. apply in_or_app. now right.
Qed.

(** [ORDER BY key DESC LIMIT n]: the first [n] rows of the ordered rows
    are [n] rows (all of them when there are fewer), in descending
    order of the key, none of them below a row left out. *)
Lemma order_by_limit `{E : Engine} {A} (key : A -> option Q) (n : nat) (l : list A) :
  let le x y := desc_nulls_last (key x) (key y) in
  let out := take n (order_by le l) in
  exists rest,
    Permutation (out ++ rest) l
    /\ length out = Nat.min n (length l)
    /\ StronglySorted (fun x y => le x y = true) out
    /\ (forall x y, In x out -> In y rest -> le x y = true)
    /\ ((length l <= n)%nat -> rest = []).
Proof.
  intros le out. exists (drop n (order_by le l)).
  pose proof (order_by_Permutation A le l) as Hperm.
  assert (Hsorted : StronglySorted (fun x y => le x y = true) (order_by le l)).
  { apply order_by_Sorted.
    - intros x y. apply desc_nulls_last_total.
    - intros x y z. apply desc_nulls_last_trans. }
  unfold out. split; [|split; [|split; [|split]]].
  - now rewrite take_drop.
  - rewrite length_take, (Permutation_length Hperm). reflexivity.
  - rewrite <- (take_drop n (order_by le l)) in Hsorted.
    now apply StronglySorted_app_inv in Hsorted.
  - rewrite <- (take_drop n (order_by le l)) in Hsorted.
    now apply StronglySorted_app_inv in Hsorted.
  - intros Hn. apply drop_ge. rewrite (Permutation_length Hperm). exact Hn.
Qed.

(** C9, as the code has it. For a count N >= 0 the trending query
    returns min(N, candidates) rows of its candidates, in descending
    order of avg_players_k (null last), and no row it leaves out has a
    larger value than a row it returns; when N is at least the number of
    candidates nothing is left out. The top-20 query does the same with
    N = 20 on total_players_k. Rows with equal values come in the order
    the engine gives them. *)
Theorem top_n_is_sorted_prefix `{E : Engine} (run_date : date) (limit : Z) (d : database) :
  (0 <= limit)%Z ->
  (exists out rest,
      trending_query run_date limit d = Rows out
      /\ Permutation (out ++ rest) (trending_candidates run_date d)
      /\ length out = Nat.min (Z.to_nat limit) (length (trending_candidates run_date d))
      /\ StronglySorted
           (fun x y => desc_nulls_last (avg_players_k x) (avg_players_k y) = true) out
      /\ (forall x y, In x out -> In y rest ->
                      desc_nulls_last (avg_players_k x) (avg_players_k y) = true)
      /\ ((length (trending_candidates run_date d) <= Z.to_nat limit)%nat -> rest = []))
  /\ (exists rest,
         let out := top_20_query run_date d in
         Permutation (out ++ rest) (top_20_candidates run_date d)
         /\ length out = Nat.min 20 (length (top_20_candidates run_date d))
         /\ StronglySorted
              (fun x y => desc_nulls_last (total_players_k x) (total_players_k y) = true)
              out
         /\ (forall x y, In x out -> In y rest ->
                         desc_nulls_last (total_players_k x) (total_players_k y) = true)
         /\ ((length (top_20_candidates run_date d) <= 20)%nat -> rest = [])).
Proof.
  intros Hlimit. split.
  - unfold trending_query.
    destruct (Z.ltb_spec limit 0) as [Hneg|_]; [lia|].
    destruct (order_by_limit avg_players_k (Z.to_nat limit)
                (trending_candidates run_date d)) as (rest & H).
    eexists; exists rest. split; [reflexivity | exact H].
  - destruct (order_by_limit total_players_k 20 (top_20_candidates run_date d))
      as (rest & H).
    exists rest. exact H.
Qed.

Lemma top_n_is_sorted_prefix_witness :
  let day := Date 2024 3 1 in
  let d :=
    Database
      [GamesRow 2 "B" day 1 (Some 5000) None None None None;
       GamesRow 1 "A" day 1 (Some 7000) None None None None]
      [] [] in
  exists out rest,
    trending_query (E := stable_engine) day 1 d = Rows out
    /\ Permutation (out ++ rest) (trending_candidates day d)
    /\ length out = Nat.min (Z.to_nat 1) (length (trending_candidates day d))
    /\ StronglySorted
         (fun x y => desc_nulls_last (avg_players_k x) (avg_players_k y) = true) out
    /\ (forall x y, In x out -> In y rest ->
                    desc_nulls_last (avg_players_k x) (avg_players_k y) = true)
    /\ ((length (trending_candidates day d) <= Z.to_nat 1)%nat -> rest = []).
Proof.
  intros day d.
  refine (proj1 (top_n_is_sorted_prefix (E := stable_engine) day 1 d _)).
  lia.
Defined.

(** C9, as the spec words it, fails on ties: two games with the same
    avg_players_k come back in the order of the engine, here appid 2
    before appid 1. *)
Lemma ties_are_not_broken_by_appid :
  let day := Date 2024 3 1 in
  let d :=
    Database
      [GamesRow 2 "B" day 1 (Some 5000) None None None None;
       GamesRow 1 "A" day 1 (Some 5000) None None None None]
      [] [] in
  trending_query (E := stable_engine) day 20 d
  = Rows [TrendingGame 2 "B" (Some 5) None None None;
          TrendingGame 1 "A" (Some 5) None None None]
  /\ ~ (forall out, trending_query (E := stable_engine) day 20 d = Rows out ->
        forall (i j : nat) x y,
          out !! i = Some x -> out !! j = Some y -> (i < j)%nat ->
          avg_players_k x = avg_players_k y -> (tg_appid x <= tg_appid y)%Z).
Proof.
  split; [vm_compute; reflexivity|].
  intros H.
  specialize (H _ eq_refl 0%nat 1%nat _ _ eq_refl eq_refl).
  vm_compute in H. specialize (H ltac:(lia) eq_refl). contradiction H. reflexivity.
Qed.

(** The code leaves the order of ties to the engine: on the same table
    two engines answer the same statement in different orders. *)
Lemma tie_order_depends_on_engine :
  let day := Date 2024 3 1 in
  let d :=
    Database
      [GamesRow 2 "B" day 1 (Some 5000) None None None None;
       GamesRow 1 "A" day 1 (Some 5000) None None None None]
      [] [] in
  trending_query (E := reversing_engine) day 20 d
  = Rows [TrendingGame 1 "A" (Some 5) None None None;
          TrendingGame 2 "B" (Some 5) None None None].
Proof. vm_compute. reflexivity. Qed.

(** ** Bargains and overpriced games *)

Lemma nan_ge_spec (x y : option Q) :
  nan_ge x y = true <-> exists a b, x = Some a /\ y = Some b /\ b <= a.
Proof.
  destruct x as [a|], y as [b|]; simpl.
  - rewrite Qle_bool_iff. split.
    + intros H. exists a, b. auto.
    + intros (a' & b' & [= <-] & [= <-] & H). exact H.
  - split; [discriminate | intros (? & ? & _ & [=] & _)].
  - split; [discriminate | intros (? & ? & [=] & _)].
  - split; [discriminate | intros (? & ? & [=] & _)].
Qed.

Lemma nan_le_spec (x y : option Q) :
  nan_le x y = true <-> exists a b, x = Some a /\ y = Some b /\ a <= b.
Proof.
  destruct x as [a|], y as [b|]; simpl.
  - rewrite Qle_bool_iff. split.
    + intros H. exists a, b. auto.
    + intros (a' & b' & [= <-] & [= <-] & H). exact H.
  - split; [discriminate | intros (? & ? & _ & [=] & _)].
  - split; [discriminate | intros (? & ? & [=] & _)].
  - split; [discriminate | intros (? & ? & [=] & _)].
Qed.

(** C6. A game is a bargain exactly when its sentiment is at least the
    75th percentile of the sentiments and its price is at most the 25th
    percentile of the prices; it is overpriced exactly when its sentiment
    is at most the 25th percentile and its price at least the 75th. Both
    conditions are required: a game meeting one of them only is in
    neither list. *)
Theorem quadrants_are_conjunctions (data : list priced) (r : priced) :
  (In r (bargains data) <->
   In r data
   /\ (exists s p75, sentiment_pct r = Some s
                     /\ quantile (75 # 100) (map sentiment_pct data) = Some p75
                     /\ p75 <= s)
   /\ (exists p p25, price_of r = Some p
                     /\ quantile (25 # 100) (map price_of data) = Some p25
                     /\ p <= p25))
  /\ (In r (overpriced data) <->
      In r data
      /\ (exists s p25, sentiment_pct r = Some s
                        /\ quantile (25 # 100) (map sentiment_pct data) = Some p25
                        /\ s <= p25)
      /\ (exists p p75, price_of r = Some p
                        /\ quantile (75 # 100) (map price_of data) = Some p75
                        /\ p75 <= p)).
Proof.
  unfold bargains, overpriced.
  rewrite !filter_In, !andb_true_iff, !nan_ge_spec, !nan_le_spec.
  split; reflexivity.
Qed.

(** The example of the spec: prices 1, 2, 10, 20 with sentiments 90, 80,
    95, 10. The cheapest game meets the price condition only; it is not a
    bargain. *)
Example cheap_is_not_enough :
  let game p s := Priced (PriceRow 0 None (Some p) None None None) None (Some s) in
  let data := [game 1 90; game 2 80; game 10 95; game 20 10] in
  quantile (25 # 100) (map price_of data) = Some (7 # 4)
  /\ quantile (75 # 100) (map sentiment_pct data) = Some (365 # 4)
  /\ nan_le (price_of (game 1 90)) (Some (7 # 4)) = true
  /\ bargains data = []
  /\ overpriced data = [game 20 10].
Proof. vm_compute. repeat split; reflexivity. Qed.

(** The query keeps only games with reviews, so the sentiment of a row
    it returns is never a division by zero. *)
Lemma price_query_has_reviews `{E : Engine} (run_date : date) (d : database) (r : price_row) :
  In r (price_query run_date d) ->
  exists t, total_reviews (add_sentiment r) = Some t /\ 10 <= t.
Proof.
  unfold price_query. intros Hr.
  apply (Permutation_in _ (order_by_Permutation _ _ _)) in Hr.
  apply filter_In in Hr. destruct Hr as [_ Hr].
  apply nan_ge_spec in Hr. destruct Hr as (a & b & Ha & [= <-] & Hle).
  exists a. split; [exact Ha | exact Hle].
Qed.

(** A column with a value has its quantiles. *)
Lemma quantile_defined (q : Q) (col : list (option Q)) :
  non_null col <> [] -> exists v, quantile q col = Some v.
Proof.
  intros Hne. unfold quantile.
  pose proof (order_by_Permutation (Engine := stable_engine) Q Qle_bool (non_null col))
    as Hperm.
  simpl in Hperm.
  destruct (stable_sort Qle_bool (non_null col)) as [|v0 vs] eqn:Hs.
  - apply Permutation_nil in Hperm. contradiction.
  - eexists. reflexivity.
Qed.

(** ** The scenario of the spec on the code

    Afternoon (current) averages A = 150 and B = 200, morning (previous)
    averages B = 0 and C = 300, with A, B, C the appids 1, 2, 3. The page
    has no record for A, the delta 200 and Stable for B, and the delta 0
    and Stable for C. *)
Example momentum_of_the_scenario :
  let day := Date 2024 3 1 in
  let d :=
    Database
      [GamesRow 1 "A" day 14 None None None None (Some 150);
       GamesRow 2 "B" day 14 None None None None (Some 200);
       GamesRow 2 "B" day 2 None None None None (Some 0);
       GamesRow 3 "C" day 2 None None None None (Some 300)]
      [] [] in
  (momentum_analysis (E := stable_engine) (healthy d) day fresh).1
  = Returned
      [Classified (MomentumRow 2 (Some "B") (Some 0) (Some 200) (Some 200)) Stable;
       Classified (MomentumRow 3 (Some "C") (Some 300) (Some 0) (Some 0)) Stable].
Proof. vm_compute. reflexivity. Qed.


(** * Further properties of the pages *)

(** ** Top 100 movement *)

Lemma movement_result_cases (conn : connection) (run_date : date) (run_hour : Z)
    (w w' : world) (m : movement) :
  fetch_top_100_movement_data conn run_date run_hour w = (Returned m, w') ->
  m = no_movement
  \/ exists prev_date prev_hour,
       let cur := top_100_query run_date run_hour (db conn) in
       let prev := top_100_query prev_date prev_hour (db conn) in
       m = Movement (appid_set cur ∖ appid_set prev) (appid_set cur ∩ appid_set prev)
             (appid_set prev ∖ appid_set cur) cur prev.
Proof.
  unfold fetch_top_100_movement_data, try_except_Error, bind, read_sql,
    previous_window, ret, raise, st_error.
  destruct (fault conn (length (sent w))) as [[msg|text]|]; simpl;
    [intros [= <- <-]; now left | discriminate |].
  destruct (run_hour - 1 <? 0)%Z.
  - destruct (minus_one_day run_date) as [pd|]; simpl; [|discriminate].
    rewrite length_app; simpl.
    destruct (fault conn _) as [[msg|text]|]; simpl;
      [intros [= <- <-]; now left | discriminate | intros [= <- <-]; right; eauto].
  - simpl. rewrite length_app; simpl.
    destruct (fault conn _) as [[msg|text]|]; simpl;
      [intros [= <- <-]; now left | discriminate | intros [= <- <-]; right; eauto].
Qed.

Lemma size_appid_set (result : list (Z * string)) :
  (size (appid_set result) <= length result)%nat.
Proof.
  assert (H : forall l : list Z, (size (list_to_set l : gset Z) <= length l)%nat).
  { induction l as [|x l IH].
    - change (list_to_set [] : gset Z) with (∅ : gset Z).
      rewrite size_empty. simpl. lia.
    - change (list_to_set (x :: l) : gset Z) with ({[x]} ∪ list_to_set l : gset Z).
      rewrite size_union_alt, size_singleton. simpl.
      assert (size (list_to_set l ∖ {[x]} : gset Z) <= size (list_to_set l : gset Z))%nat.
      { apply subseteq_size. intros y. rewrite elem_of_difference. tauto. }
      lia. }
  destruct result as [|r result].
  { change (appid_set []) with (∅ : gset Z). rewrite size_empty. simpl. lia. }
  unfold appid_set. rewrite <- (length_map fst). apply H.
Qed.

Lemma length_top_100_query (run_date : date) (run_hour : Z) (d : database) :
  (length (top_100_query run_date run_hour d) <= 100)%nat.
Proof. unfold top_100_query. rewrite length_take. lia. Qed.

(** The movement of an hour never counts more than 100 games on either
    side: new entries and stayers together are at most 100, and so are
    stayers and removals. *)
Theorem movement_at_most_100 (conn : connection) (run_date : date) (run_hour : Z)
    (w w' : world) (m : movement) :
  fetch_top_100_movement_data conn run_date run_hour w = (Returned m, w') ->
  (size (rising m) + size (holding m) <= 100)%nat
  /\ (size (falling m) + size (holding m) <= 100)%nat.
Proof.
  intros Hm. apply movement_result_cases in Hm.
  destruct Hm as [->|(pd & ph & ->)]; unfold no_movement;
    cbn [rising holding falling].
  - rewrite size_empty. lia.
  - pose proof (size_appid_set (top_100_query run_date run_hour (db conn))) as Hc.
    pose proof (size_appid_set (top_100_query pd ph (db conn))) as Hp.
    pose proof (length_top_100_query run_date run_hour (db conn)) as Hc'.
    pose proof (length_top_100_query pd ph (db conn)) as Hp'.
    set (cur := appid_set (top_100_query run_date run_hour (db conn))) in *.
    set (prev := appid_set (top_100_query pd ph (db conn))) in *.
    assert (H1 : (size (cur ∖ prev) + size (cur ∩ prev) = size cur)%nat).
    { rewrite <- size_union.
      - f_equal. apply set_eq. intros x.
        rewrite elem_of_union, elem_of_difference, elem_of_intersection.
        destruct (decide (x ∈ prev)); tauto.
      - intros x. rewrite elem_of_difference, elem_of_intersection. tauto. }
    assert (H2 : (size (prev ∖ cur) + size (cur ∩ prev) = size prev)%nat).
    { rewrite <- size_union.
      - f_equal. apply set_eq. intros x.
        rewrite elem_of_union, elem_of_difference, elem_of_intersection.
        destruct (decide (x ∈ cur)); tauto.
      - intros x. rewrite elem_of_difference, elem_of_intersection. tauto. }
    lia.
Qed.

Lemma movement_sets_witness :
  let m := Movement {[1%Z]} {[2%Z]} {[3%Z]} [(1%Z, "A"); (2%Z, "B")] [(2%Z, "B"); (3%Z, "C")] in
  (rising m, holding m, falling m)
  = categorize (appid_set (current_df m)) (appid_set (prev_df m)).
Proof.
  intros m.
  eapply (movement_sets (healthy sample_trending) sample_day 0 fresh).
  vm_compute. reflexivity.
Defined.

Lemma movement_is_never_partial_witness :
  let conn := Connection sample_trending
                (fun n => match n with
                          | 1%nat => Some (ExecuteFailed "Execution failed on sql: Lost connection")
                          | _ => None
                          end) in
  fetch_top_100_movement_data conn sample_day 5 fresh
  = (Raised (DatabaseError "Execution failed on sql: Lost connection"),
     World ([] ++ [(top_100_sql, [PDate sample_day; PInt 5]);
                   (top_100_sql, [PDate sample_day; PInt 4])])
           []).
Proof.
  intros conn.
  apply (movement_is_never_partial conn fresh
           (ExecuteFailed "Execution failed on sql: Lost connection")
           sample_day sample_day 5 4).
  - reflexivity.
  - reflexivity.
  - intros w0. reflexivity.
Defined.

Lemma movement_at_most_100_witness :
  let m := Movement {[1%Z]} {[2%Z]} {[3%Z]} [(1%Z, "A"); (2%Z, "B")] [(2%Z, "B"); (3%Z, "C")] in
  (size (rising m) + size (holding m) <= 100)%nat
  /\ (size (falling m) + size (holding m) <= 100)%nat.
Proof.
  intros m.
  eapply (movement_at_most_100 (healthy sample_trending) sample_day 0 fresh).
  vm_compute. reflexivity.
Defined.

(** ** The momentum table *)

Lemma delta_of_both_windows_witness :
  exists q, delta (MomentumRow 1 (Some "A") (Some 1000) (Some 400) (Some (-600))) = Some q
            /\ q == 400 - 1000.
Proof.
  apply (delta_of_both_windows (E := stable_engine) sample_day 1 12 13 23 sample_games
           (MomentumRow 1 (Some "A") (Some 1000) (Some 400) (Some (-600))) 1000 400).
  - vm_compute. left. reflexivity.
  - reflexivity.
  - vm_compute. left. reflexivity.
Defined.

Lemma count_status_add_up (df : list classified) :
  (count_status Rising df + count_status Stable df + count_status Falling df
   = length df)%nat.
Proof.
  unfold count_status.
  induction df as [|c df IH]; simpl; [reflexivity|].
  destruct (c_status c); simpl; lia.
Qed.

(** Every game with a morning record is counted in exactly one of the
    three metrics above the tabs: the counts of Rising, Stable and
    Falling add up to the number of games of the morning window, and a
    tab shows the first 30 rows of its status at most. *)
Theorem momentum_counts_add_up `{E : Engine} (run_date : date)
    (morning_start morning_end afternoon_start afternoon_end : Z) (d : database) :
  let df := classify (momentum_query run_date morning_start morning_end
                        afternoon_start afternoon_end d) in
  (count_status Rising df + count_status Stable df + count_status Falling df
   = length (morning run_date morning_start morning_end d))%nat
  /\ forall s, length (tab s df) = Nat.min 30 (count_status s df).
Proof.
  intros df. split.
  - rewrite count_status_add_up. unfold df, classify. rewrite length_map.
    pose proof (momentum_query_appids run_date morning_start morning_end
                  afternoon_start afternoon_end d) as Hperm.
    apply Permutation_length in Hperm. now rewrite !length_map in Hperm.
  - intros s. unfold tab, count_status, _TOTAL_GAMES_TO_DISPLAY.
    apply length_take.
Qed.

Lemma StronglySorted_filter {A} (R : A -> A -> Prop) (f : A -> bool) (l : list A) :
  StronglySorted R l -> StronglySorted R (List.filter f l).
Proof.
  induction 1 as [|x l Hl IH Hx]; simpl; [constructor|].
  destruct (f x); [|exact IH].
  constructor; [exact IH|].
  rewrite List.Forall_forall in Hx |- *.
  intros y Hy. apply filter_In in Hy. now apply Hx.
Qed.

Lemma StronglySorted_take {A} (R : A -> A -> Prop) (n : nat) (l : list A) :
  StronglySorted R l -> StronglySorted R (take n l).
Proof.
  intros Hl. rewrite <- (take_drop n l) in Hl.
  now apply StronglySorted_app_inv in Hl.
Qed.

Lemma StronglySorted_map_in {A B} (R : A -> A -> Prop) (R' : B -> B -> Prop)
    (g : A -> B) (l : list A) :
  (forall x y, In x l -> In y l -> R x y -> R' (g x) (g y)) ->
  StronglySorted R l -> StronglySorted R' (map g l).
Proof.
  intros Hg Hl. induction Hl as [|x l Hl IH Hx]; simpl; [constructor|].
  constructor.
  - apply IH. intros a b Ha Hb. apply Hg; now right.
  - rewrite List.Forall_forall in Hx |- *.
    intros b Hb. apply in_map_iff in Hb. destruct Hb as (y & <- & Hy).
    apply Hg; [now left | now right | now apply Hx].
Qed.

Lemma momentum_status_not_Stable (x : option Q) :
  momentum_status (fillna 0 x) <> Stable -> fillna 0 x = x.
Proof.
  destruct x as [q|]; simpl; [reflexivity|].
  intros H. exfalso. apply H. reflexivity.
Qed.

(** The Rising tab and the Falling tab list their games by descending
    delta: the largest gain first, the largest loss last. (The Stable
    tab need not be in that order: its games without an afternoon value
    come after the others, with a delta of 0.) *)
Theorem trending_tabs_are_sorted `{E : Engine} (run_date : date)
    (morning_start morning_end afternoon_start afternoon_end : Z) (d : database)
    (s : status) :
  s <> Stable ->
  StronglySorted
    (fun x y => desc_nulls_last (delta (c_row x)) (delta (c_row y)) = true)
    (tab s (classify (momentum_query run_date morning_start morning_end
                        afternoon_start afternoon_end d))).
Proof.
  intros Hs. unfold tab. apply StronglySorted_take.
  unfold classify. rewrite filter_map_swap.
  set (g := fun r => Classified (fillna_delta r) (momentum_status (delta (fillna_delta r)))).
  apply (StronglySorted_map_in
           (fun x y => desc_nulls_last (delta x) (delta y) = true)).
  - intros x y Hx Hy Hxy.
    apply filter_In in Hx. destruct Hx as [_ Hx].
    apply filter_In in Hy. destruct Hy as [_ Hy].
    unfold g in *. simpl in *.
    assert (Hne : forall r, status_eqb (momentum_status (fillna 0 (delta r))) s = true ->
                            fillna 0 (delta r) = delta r).
    { intros r Hr. apply momentum_status_not_Stable.
      destruct (momentum_status (fillna 0 (delta r))), s; simpl in Hr;
        congruence. }
    now rewrite (Hne x Hx), (Hne y Hy).
  - apply StronglySorted_filter. unfold momentum_query.
    apply (order_by_Sorted momentum_row
             (fun x y => desc_nulls_last (delta x) (delta y))).
    + intros x y. apply desc_nulls_last_total.
    + intros x y z. apply desc_nulls_last_trans.
Qed.

Lemma trending_tabs_are_sorted_witness :
  StronglySorted
    (fun x y => desc_nulls_last (delta (c_row x)) (delta (c_row y)) = true)
    (tab Falling (classify (momentum_query (E := stable_engine) sample_day 1 12 13 23
                              sample_games))).
Proof.
  apply (trending_tabs_are_sorted (E := stable_engine) sample_day 1 12 13 23
           sample_games Falling).
  discriminate.
Defined.

(** The Stable tab out of order: a game lost in the afternoon, shown
    with the delta 0, comes after a game that lost 100 minutes. *)
Example stable_tab_is_not_sorted :
  let d :=
    Database
      [GamesRow 1 "A" sample_day 2 None None None None (Some 500);
       GamesRow 1 "A" sample_day 14 None None None None (Some 400);
       GamesRow 2 "B" sample_day 3 None None None None (Some 100)]
      [] [] in
  map (fun c => (mo_appid (c_row c), delta (c_row c)))
      (tab Stable (classify (momentum_query (E := stable_engine) sample_day 1 12 13 23 d)))
  = [(1%Z, Some (-100)); (2%Z, Some 0)].
Proof. vm_compute. reflexivity. Qed.

Lemma remove_dups_nil {A} `{EqDecision A} (l : list A) : remove_dups l = [] -> l = [].
Proof.
  destruct l as [|x l]; [reflexivity|]. intros H.
  assert (Hx : x ∈ remove_dups (x :: l)) by (apply elem_of_remove_dups; left).
  rewrite H in Hx. inversion Hx.
Qed.

Lemma morning_is_empty (run_date : date) (h_start h_end : Z) (d : database) :
  morning run_date h_start h_end d = []
  <-> forall row, In row (games_cleaned d) -> in_window run_date h_start h_end row = false.
Proof.
  split.
  - intros Hm row Hrow.
    destruct (in_window run_date h_start h_end row) eqn:Hw; [|reflexivity].
    assert (Ha : In (g_appid row) (map m_appid (morning run_date h_start h_end d))).
    { rewrite morning_appids. apply window_appids. eauto. }
    rewrite Hm in Ha. destruct Ha.
  - intros Hall. unfold morning.
    assert (Hf : List.filter (in_window run_date h_start h_end) (games_cleaned d) = []).
    { destruct (List.filter _ _) as [|row rows] eqn:Hf; [reflexivity|].
      assert (Hin : In row (List.filter (in_window run_date h_start h_end) (games_cleaned d)))
        by (rewrite Hf; now left).
      apply filter_In in Hin. destruct Hin as [Hin Hw].
      rewrite (Hall row Hin) in Hw. discriminate. }
    rewrite Hf. reflexivity.
Qed.

(** On a healthy connection the page says "No momentum data available."
    exactly when the date has no record between the hours 1 and 12,
    whatever it has in the afternoon; with a morning record it shows the
    classified table, without a warning or an error. *)
Theorem no_momentum_without_morning `{E : Engine} (d : database) (selected_date : date)
    (w : world) :
  let r := momentum_analysis (healthy d) selected_date w in
  let statement :=
    (momentum_sql,
     [PDate selected_date; PInt 1; PInt 12; PDate selected_date; PInt 13; PInt 23]) in
  ((forall row, In row (games_cleaned d) -> in_window selected_date 1 12 row = false) ->
   r = (Returned [],
        World (sent w ++ [statement])
              (shown w ++ [StWarning "No momentum data available."])))
  /\ ((exists row, In row (games_cleaned d) /\ in_window selected_date 1 12 row = true) ->
      r = (Returned (classify (momentum_query selected_date 1 12 13 23 d)),
           World (sent w ++ [statement]) (shown w))
      /\ classify (momentum_query selected_date 1 12 13 23 d) <> []).
Proof.
  intros r statement.
  pose proof (momentum_query_appids selected_date 1 12 13 23 d) as Hperm.
  apply Permutation_length in Hperm. rewrite !length_map in Hperm.
  unfold r, momentum_analysis, try_except_Exception, bind, read_sql, ret,
    st_warning, healthy; simpl.
  split.
  - intros Hall. apply morning_is_empty in Hall. rewrite Hall in Hperm.
    destruct (momentum_query selected_date 1 12 13 23 d); [reflexivity|discriminate].
  - intros (row & Hrow & Hw).
    destruct (momentum_query selected_date 1 12 13 23 d) as [|x xs] eqn:Hq.
    + exfalso. simpl in Hperm.
      destruct (morning selected_date 1 12 d) eqn:Hm; [|discriminate].
      apply morning_is_empty with (row := row) in Hm; [congruence|exact Hrow].
    + split; [reflexivity | discriminate].
Qed.

(** ** The trending page as a whole *)

(** When the first statement of the trending page fails, the page never
    sends the momentum statement. Behind a connection that is down it
    shows the error of the fetch and then the warning that the date has
    no data, and returns. After a failed execution the [DatabaseError]
    of pandas leaves the page, with nothing shown. *)
Theorem trending_page_stops_after_failure `{E : Engine} (conn : connection)
    (selected_date : date) (top_n : Z) (w : world) (f : failure) :
  fault conn (length (sent w)) = Some f ->
  show_top_trending_games conn selected_date top_n w
  = match f with
    | Disconnected msg =>
        (Returned [],
         World (sent w ++ [(trending_sql, [PDate selected_date; PInt top_n])])
               (shown w ++ [StError ("Error fetching trending games: " ++ msg)%string;
                            StWarning ("⚠️ No data available for "
                                       ++ isoformat selected_date)%string]))
    | ExecuteFailed text =>
        (Raised (DatabaseError text),
         World (sent w ++ [(trending_sql, [PDate selected_date; PInt top_n])]) (shown w))
    end.
Proof.
  intros Hf.
  unfold show_top_trending_games, fetch_top_trending_games_data, try_except_Error,
    bind, read_sql, ret, st_error, st_warning.
  rewrite Hf. destruct f; simpl; [|reflexivity].
  rewrite <- app_assoc. reflexivity.
Qed.

Lemma trending_page_stops_after_failure_witness :
  show_top_trending_games (E := stable_engine)
    (unreachable sample_games "MySQL Connection not available.") sample_day 20 fresh
  = (Returned [],
     World ([] ++ [(trending_sql, [PDate sample_day; PInt 20])])
           ([] ++ [StError "Error fetching trending games: MySQL Connection not available.";
                   StWarning ("⚠️ No data available for " ++ isoformat sample_day)%string])).
Proof.
  exact (trending_page_stops_after_failure (E := stable_engine)
           (unreachable sample_games "MySQL Connection not available.")
           sample_day 20 fresh (Disconnected "MySQL Connection not available.") eq_refl).
Defined.


(** ** The player-count trends *)

Lemma Permutation_filter_or {A} (p q : A -> bool) (l : list A) :
  (forall x, p x = true -> q x = true -> False) ->
  Permutation (List.filter p l ++ List.filter q l)
              (List.filter (fun x => p x || q x) l).
Proof.
  intros Hpq. induction l as [|x l IH]; simpl; [constructor|].
  destruct (p x) eqn:Hp, (q x) eqn:Hq; simpl.
  - destruct (Hpq x Hp Hq).
  - now apply perm_skip.
  - rewrite <- IH. symmetry. apply Permutation_middle.
  - exact IH.
Qed.

Lemma Permutation_flat_map_ext {A B} (f g : A -> list B) (l : list A) :
  (forall x, Permutation (f x) (g x)) ->
  Permutation (flat_map f l) (flat_map g l).
Proof.
  intros Hfg. induction l as [|x l IH]; simpl; [constructor|].
  now apply Permutation_app.
Qed.

(** Cutting rows into the groups of their keys loses and repeats
    nothing. *)
Lemma partition_by_key {A} (key : A -> Z) (rows : list A) :
  Permutation
    (flat_map (fun k => List.filter (fun r => (key r =? k)%Z) rows)
       (remove_dups (map key rows)))
    rows.
Proof.
  assert (Hgen : forall ks, List.NoDup ks ->
            Permutation
              (flat_map (fun k => List.filter (fun r => (key r =? k)%Z) rows) ks)
              (List.filter (fun r => existsb (Z.eqb (key r)) ks) rows)).
  { induction ks as [|k ks IH]; intros Hnd.
    - simpl. induction rows as [|r rows IHr]; simpl; [constructor | exact IHr].
    - apply List.NoDup_cons_iff in Hnd. destruct Hnd as [Hk Hnd].
      cbn [flat_map]. rewrite (IH Hnd).
      rewrite Permutation_filter_or.
      + apply Permutation_refl'. apply filter_ext. intros r. reflexivity.
      + intros r Hr Hin. apply Z.eqb_eq in Hr. subst k.
        apply existsb_exists in Hin. destruct Hin as (k' & Hk' & He).
        apply Z.eqb_eq in He. subst k'. contradiction. }
  rewrite Hgen by apply NoDup_ListNoDup, NoDup_remove_dups.
  apply Permutation_refl'.
  transitivity (List.filter (fun _ : A => true) rows).
  - apply filter_ext_in. intros r Hr. apply existsb_exists. exists (key r).
    split; [|apply Z.eqb_refl].
    apply list_elem_of_In, elem_of_remove_dups, list_elem_of_In. now apply in_map.
  - clear Hgen. induction rows as [|r rows IH]; simpl; [reflexivity | now f_equal].
Qed.

Lemma lag_fst {A} (value : A -> option Q) (before : option Q) (partition : list A) :
  map fst (lag value before partition) = partition.
Proof.
  revert before. induction partition as [|r rest IH]; intros before; simpl;
    [reflexivity | now rewrite IH].
Qed.

Lemma lag_over_fst `{E : Engine} {A} (appid : A -> Z) (le : A -> A -> bool)
    (value : A -> option Q) (rows : list A) :
  Permutation (map fst (lag_over appid le value rows)) rows.
Proof.
  unfold lag_over. rewrite flat_map_concat_map, concat_map, List.map_map.
  rewrite <- flat_map_concat_map.
  rewrite <- (partition_by_key appid rows) at 2.
  apply Permutation_flat_map_ext. intros k.
  rewrite lag_fst. apply order_by_Permutation.
Qed.

Section TrendRows.
Context {E : Engine}.
Variables (appids : list Z) (d : database).

Lemma hourly_query_records :
  Permutation
    (map (fun r => PlayerRow (h_appid r) (h_run_date r) (h_run_hour r) (current_players r))
       (hourly_query appids d))
    (List.filter (fun r => appid_in appids (p_appid r)) (player_count d)).
Proof.
  unfold hourly_query.
  etransitivity; [apply Permutation_map, order_by_Permutation|].
  rewrite List.map_map.
  etransitivity; [|apply (lag_over_fst p_appid
     (fun x y => date_hour_leb (p_run_date x) (p_run_hour x) (p_run_date y) (p_run_hour y))
     p_current_players)].
  apply Permutation_refl'. apply map_ext. now intros [[] before].
Qed.

Lemma trends_query_totals :
  Permutation
    (map (fun r => DailyTotal (d_appid r) (d_run_date r) (players_k r))
       (trends_query appids d))
    (daily_totals appids d).
Proof.
  unfold trends_query.
  etransitivity; [apply Permutation_map, order_by_Permutation|].
  rewrite List.map_map.
  etransitivity; [|apply (lag_over_fst dt_appid
     (fun x y => date_leb (dt_run_date x) (dt_run_date y)) dt_players_k)].
  apply Permutation_refl'. apply map_ext. now intros [[] before].
Qed.

Lemma daily_totals_keys :
  map (fun t => (dt_appid t, dt_run_date t)) (daily_totals appids d)
  = remove_dups
      (map (fun r => (p_appid r, p_run_date r))
         (List.filter (fun r => appid_in appids (p_appid r)) (player_count d))).
Proof.
  unfold daily_totals. rewrite List.map_map. simpl.
  rewrite <- List.map_id. apply map_ext. now intros [].
Qed.

(** The trends lose and repeat nothing: the hourly trend has exactly
    the player_count records of the games asked for, each once and with
    its values; the daily trend has exactly one row for every date of
    every game asked for. *)
Theorem trends_keep_every_record :
  Permutation
    (map (fun r => PlayerRow (h_appid r) (h_run_date r) (h_run_hour r) (current_players r))
       (hourly_query appids d))
    (List.filter (fun r => appid_in appids (p_appid r)) (player_count d))
  /\ Permutation
       (map (fun r => (d_appid r, d_run_date r)) (trends_query appids d))
       (remove_dups
          (map (fun r => (p_appid r, p_run_date r))
             (List.filter (fun r => appid_in appids (p_appid r)) (player_count d))))
  /\ List.NoDup (map (fun r => (d_appid r, d_run_date r)) (trends_query appids d)).
Proof.
  assert (Hkeys : Permutation
            (map (fun r => (d_appid r, d_run_date r)) (trends_query appids d))
            (remove_dups
               (map (fun r => (p_appid r, p_run_date r))
                  (List.filter (fun r => appid_in appids (p_appid r)) (player_count d))))).
  { rewrite <- daily_totals_keys.
    rewrite <- (Permutation_map (fun t => (dt_appid t, dt_run_date t)) trends_query_totals).
    rewrite List.map_map. reflexivity. }
  split; [exact hourly_query_records|]. split; [exact Hkeys|].
  apply (Permutation_NoDup (Permutation_sym Hkeys)).
  apply NoDup_ListNoDup, NoDup_remove_dups.
Qed.

(** A trend never has a row of a game that was not asked for. *)
Theorem trends_only_requested_games :
  (forall r, In r (hourly_query appids d) -> In (h_appid r) appids)
  /\ (forall r, In r (trends_query appids d) -> In (d_appid r) appids).
Proof.
  assert (Hin : forall a, appid_in appids a = true -> In a appids).
  { intros a Ha. apply existsb_exists in Ha. destruct Ha as (x & Hx & He).
    apply Z.eqb_eq in He. now subst. }
  split; intros r Hr.
  - apply (in_map (fun r => PlayerRow (h_appid r) (h_run_date r) (h_run_hour r)
                              (current_players r))) in Hr.
    apply (Permutation_in _ hourly_query_records) in Hr.
    apply filter_In in Hr. destruct Hr as [_ Hr]. now apply Hin.
  - apply (in_map (fun r => DailyTotal (d_appid r) (d_run_date r) (players_k r))) in Hr.
    apply (Permutation_in _ trends_query_totals) in Hr.
    apply (in_map (fun t => (dt_appid t, dt_run_date t))) in Hr.
    rewrite daily_totals_keys in Hr. simpl in Hr.
    rewrite <- list_elem_of_In, elem_of_remove_dups, list_elem_of_In in Hr.
    apply in_map_iff in Hr. destruct Hr as (x & [= Hx _] & Hxin).
    apply filter_In in Hxin. destruct Hxin as [_ Hxin].
    rewrite <- Hx. now apply Hin.
Qed.

End TrendRows.

Lemma date_leb_spec (a b : date) :
  date_leb a b = true
  <-> (year a < year b
       \/ (year a = year b
           /\ (month a < month b \/ (month a = month b /\ day a <= day b))))%Z.
Proof.
  unfold date_leb.
  rewrite !orb_true_iff, !andb_true_iff, !orb_true_iff, !andb_true_iff,
    !Z.ltb_lt, !Z.eqb_eq, Z.leb_le.
  tauto.
Qed.

Lemma date_leb_total (a b : date) : date_leb a b = true \/ date_leb b a = true.
Proof. rewrite !date_leb_spec. lia. Qed.

Lemma date_leb_trans (a b c : date) :
  date_leb a b = true -> date_leb b c = true -> date_leb a c = true.
Proof. rewrite !date_leb_spec. lia. Qed.

Lemma date_leb_antisym (a b : date) :
  date_leb a b = true -> date_leb b a = true -> a = b.
Proof.
  rewrite !date_leb_spec. destruct a, b; simpl. intros H1 H2.
  f_equal; lia.
Qed.

Lemma date_eqb_eq (a b : date) : date_eqb a b = true <-> a = b.
Proof.
  unfold date_eqb. rewrite !andb_true_iff, !Z.eqb_eq.
  destruct a, b; simpl. split.
  - intros [[-> ->] ->]. reflexivity.
  - intros [= -> -> ->]. auto.
Qed.

(** Where a [LAG] value comes from: the seed on the first row of the
    partition, the value of the row just before on every other row. *)
Lemma lag_before {A} (value : A -> option Q) (seed : option Q) (partition : list A)
    (x : A) (b : option Q) :
  In (x, b) (lag value seed partition) ->
  (b = seed /\ exists rest, partition = x :: rest)
  \/ (exists p1 y p2, partition = p1 ++ y :: x :: p2 /\ b = value y).
Proof.
  revert seed. induction partition as [|r rest IH]; intros seed; simpl; [tauto|].
  intros [[= <- <-]|Hin].
  - left. eauto.
  - right. destruct (IH _ Hin) as [[-> (rest' & ->)]|(p1 & y & p2 & -> & ->)].
    + exists [], r, rest'. auto.
    + exists (r :: p1), y, p2. auto.
Qed.

Lemma NoDup_map_filter {A B} (k : A -> B) (f : A -> bool) (l : list A) :
  List.NoDup (map k l) -> List.NoDup (map k (List.filter f l)).
Proof.
  induction l as [|x l IH]; simpl; [auto|].
  intros Hnd. apply List.NoDup_cons_iff in Hnd. destruct Hnd as [Hx Hnd].
  destruct (f x); simpl; [|auto].
  constructor; [|auto].
  intros Hin. apply Hx. apply in_map_iff in Hin. destruct Hin as (y & <- & Hy).
  apply filter_In in Hy. apply in_map. tauto.
Qed.

(** On the earliest date of a game the daily trend has no value before:
    the previous total, the difference and the percent change are all
    null (N/A in the table). *)
Theorem first_date_has_no_previous `{E : Engine} (appids : list Z) (d : database)
    (r : daily_trend) :
  In r (trends_query appids d) ->
  (forall r', In r' (trends_query appids d) -> d_appid r' = d_appid r ->
              date_leb (d_run_date r') (d_run_date r) = true ->
              d_run_date r' = d_run_date r) ->
  prev_players_k r = None /\ player_diff_k r = None /\ d_pct_change r = None.
Proof.
  intros Hr Hmin.
  assert (Hnone : prev_players_k r = None).
  { pose proof Hr as Hr0. unfold trends_query in Hr0.
    apply (Permutation_in _ (order_by_Permutation _ _ _)) in Hr0.
    apply in_map_iff in Hr0. destruct Hr0 as ([x b] & <- & Hxb). simpl in *.
    unfold lag_over in Hxb. apply in_flat_map in Hxb. destruct Hxb as (k & _ & Hxb).
    set (le := fun x y : daily_total => date_leb (dt_run_date x) (dt_run_date y)) in *.
    set (part := order_by le
                   (List.filter (fun t => (dt_appid t =? k)%Z) (daily_totals appids d))) in *.
    assert (Hperm : Permutation part
                      (List.filter (fun t => (dt_appid t =? k)%Z) (daily_totals appids d)))
      by apply order_by_Permutation.
    assert (Hsorted : StronglySorted (fun a b => le a b = true) part).
    { apply order_by_Sorted.
      - intros a c. apply date_leb_total.
      - intros a c e. apply date_leb_trans. }
    assert (Hnd : List.NoDup (map (fun t => (dt_appid t, dt_run_date t)) part)).
    { apply (Permutation_NoDup (Permutation_map _ (Permutation_sym Hperm))).
      apply NoDup_map_filter. rewrite daily_totals_keys.
      apply NoDup_ListNoDup, NoDup_remove_dups. }
    destruct (lag_before _ _ _ _ _ Hxb) as [[-> _]|(p1 & y & p2 & Hpart & ->)];
      [reflexivity|exfalso].
    assert (Hy : In y part) by (rewrite Hpart; apply in_or_app; right; now left).
    assert (Hx : In x part) by (rewrite Hpart; apply in_or_app; right; right; now left).
    apply (Permutation_in _ Hperm) in Hy. apply filter_In in Hy. destruct Hy as [Hy Hyk].
    apply (Permutation_in _ Hperm) in Hx. apply filter_In in Hx. destruct Hx as [_ Hxk].
    apply Z.eqb_eq in Hyk, Hxk.
    assert (Hle : le y x = true).
    { rewrite Hpart in Hsorted. apply StronglySorted_app_inv in Hsorted.
      destruct Hsorted as (_ & Hs & _). apply StronglySorted_inv in Hs.
      destruct Hs as [_ Hs]. rewrite List.Forall_forall in Hs. apply Hs. now left. }
    apply (Permutation_in _ (Permutation_sym (trends_query_totals appids d))) in Hy.
    apply in_map_iff in Hy. destruct Hy as (r' & Hr' & Hr'in).
    assert (Hdate : dt_run_date y = dt_run_date x).
    { rewrite <- Hr'. simpl. apply (Hmin r' Hr'in).
      - rewrite <- Hr' in Hyk. simpl in Hyk. congruence.
      - unfold le in Hle. rewrite <- Hr' in Hle. exact Hle. }
    rewrite Hpart, map_app in Hnd. apply NoDup_app_remove_l in Hnd. simpl in Hnd.
    apply List.NoDup_cons_iff in Hnd. destruct Hnd as [Hnd _].
    apply Hnd. left. congruence. }
  destruct (trends_query_rows appids d r Hr) as [Hdiff Hpct].
  rewrite Hdiff, Hpct, Hnone. repeat split.
  - unfold player_diff_of. now destruct (players_k r).
  - apply pct_change_of_undefined. now left.
Qed.

Lemma first_date_has_no_previous_witness :
  let r := DailyTrend 1 sample_day (Some 7) None None None in
  prev_players_k r = None /\ player_diff_k r = None /\ d_pct_change r = None.
Proof.
  intros r.
  apply (first_date_has_no_previous (E := stable_engine) [1%Z] sample_players r).
  - vm_compute. left. reflexivity.
  - intros r' Hin _ Hle. vm_compute in Hin.
    destruct Hin as [<-|[<-|[]]]; [reflexivity | discriminate Hle].
Defined.

(** ** The game selectors *)

Section Dict.
Context {K V : Type} `{EqDecision K}.

Lemma dict_get_set_eq (k : K) (v : V) (d : list (K * V)) :
  dict_get k (dict_set k v d) = Some v.
Proof.
  induction d as [|[k' v'] d IH]; simpl.
  - now rewrite decide_True.
  - destruct (decide (k = k')) as [->|Hne]; simpl.
    + now rewrite decide_True.
    + now rewrite decide_False.
Qed.

Lemma dict_get_set_ne (k k' : K) (v : V) (d : list (K * V)) :
  k <> k' -> dict_get k' (dict_set k v d) = dict_get k' d.
Proof.
  intros Hne. induction d as [|[k0 v0] d IH]; simpl.
  - now rewrite decide_False by congruence.
  - destruct (decide (k = k0)) as [->|Hk]; simpl.
    + now rewrite !decide_False by congruence.
    + destruct (decide (k' = k0)); [reflexivity | exact IH].
Qed.

Lemma dict_get_app (k : K) (d1 d2 : list (K * V)) :
  dict_get k (d1 ++ d2)
  = match dict_get k d1 with Some v => Some v | None => dict_get k d2 end.
Proof.
  induction d1 as [|[k' v'] d1 IH]; simpl; [reflexivity|].
  destruct (decide (k = k')); [reflexivity | exact IH].
Qed.

(** A comprehension keeps, for every key, the value of its last item. *)
Lemma dict_get_dict_of (k : K) (items : list (K * V)) :
  dict_get k (dict_of items) = dict_get k (rev items).
Proof.
  unfold dict_of.
  assert (Hgen : forall acc,
             dict_get k (fold_left (fun d kv => dict_set kv.1 kv.2 d) items acc)
             = match dict_get k (rev items) with
               | Some v => Some v
               | None => dict_get k acc
               end).
  { induction items as [|[k0 v0] items IH]; intros acc; simpl; [reflexivity|].
    rewrite IH, dict_get_app. simpl.
    destruct (dict_get k (rev items)); [reflexivity|].
    destruct (decide (k = k0)) as [->|Hne].
    - apply dict_get_set_eq.
    - apply dict_get_set_ne. congruence. }
  rewrite Hgen. now destruct (dict_get k (rev items)).
Qed.

Lemma dict_get_In (k : K) (v : V) (d : list (K * V)) :
  dict_get k d = Some v -> In (k, v) d.
Proof.
  induction d as [|[k' v'] d IH]; simpl; [discriminate|].
  destruct (decide (k = k')) as [->|Hne].
  - intros [= ->]. now left.
  - intros Hget. right. now apply IH.
Qed.

Lemma dict_get_is_Some (k : K) (d : list (K * V)) :
  In k (map fst d) -> is_Some (dict_get k d).
Proof.
  induction d as [|[k' v'] d IH]; simpl; [tauto|].
  destruct (decide (k = k')) as [->|Hne]; [eauto|].
  intros [Heq|Hin]; [congruence | now apply IH].
Qed.

Lemma dict_set_keys (k : K) (v : V) (d : list (K * V)) (k' : K) :
  In k' (map fst (dict_set k v d)) <-> k' = k \/ In k' (map fst d).
Proof.
  induction d as [|[k0 v0] d IH]; simpl.
  - split; [intros [<-|[]]; auto | intros [->|[]]; auto].
  - destruct (decide (k = k0)) as [->|Hne]; simpl.
    + split; [intros [<-|Hin]; auto | intros [->|[<-|Hin]]; auto].
    + rewrite IH. split.
      * intros [<-|[->|Hin]]; auto.
      * intros [->|[<-|Hin]]; auto.
Qed.

Lemma dict_set_NoDup (k : K) (v : V) (d : list (K * V)) :
  List.NoDup (map fst d) -> List.NoDup (map fst (dict_set k v d)).
Proof.
  induction d as [|[k0 v0] d IH]; simpl; intros Hnd.
  - constructor; [intros [] | constructor].
  - apply List.NoDup_cons_iff in Hnd. destruct Hnd as [Hk0 Hnd].
    destruct (decide (k = k0)) as [->|Hne]; simpl.
    + now constructor.
    + constructor; [|now apply IH].
      rewrite dict_set_keys. intros [Heq|Hin]; [congruence | contradiction].
Qed.

(** A dictionary has every key once. *)
Lemma dict_of_NoDup (items : list (K * V)) : List.NoDup (map fst (dict_of items)).
Proof.
  unfold dict_of.
  assert (Hgen : forall acc, List.NoDup (map fst acc) ->
             List.NoDup (map fst (fold_left (fun d kv => dict_set kv.1 kv.2 d) items acc))).
  { induction items as [|[k0 v0] items IH]; intros acc Hacc; simpl; [exact Hacc|].
    apply IH. now apply dict_set_NoDup. }
  apply Hgen. constructor.
Qed.

Lemma dict_get_of_item (k : K) (v : V) (d : list (K * V)) :
  List.NoDup (map fst d) -> In (k, v) d -> dict_get k d = Some v.
Proof.
  induction d as [|[k0 v0] d IH]; simpl; [tauto|].
  intros Hnd. apply List.NoDup_cons_iff in Hnd. destruct Hnd as [Hk0 Hnd].
  intros [[= -> ->]|Hin].
  - now rewrite decide_True.
  - rewrite decide_False; [now apply IH|].
    intros ->. apply Hk0. now apply (in_map fst) in Hin.
Qed.

(** The items of a comprehension are items it was built from. *)
Lemma dict_of_items (k : K) (v : V) (items : list (K * V)) :
  In (k, v) (dict_of items) -> In (k, v) items.
Proof.
  intros Hin.
  apply (dict_get_of_item k v _ (dict_of_NoDup items)) in Hin.
  rewrite dict_get_dict_of in Hin. apply dict_get_In in Hin.
  now apply in_rev.
Qed.

End Dict.

Lemma all_games_query_NoDup `{E : Engine} (run_date : date) (d : database) :
  List.NoDup (map fst (all_games_query run_date d)).
Proof.
  unfold all_games_query.
  apply (Permutation_NoDup
           (Permutation_map fst (Permutation_sym (order_by_Permutation _ _ _)))).
  apply NoDup_map_NoDup_ForallPairs; [|apply NoDup_ListNoDup, NoDup_remove_dups].
  intros x y Hx Hy Hxy.
  rewrite <- list_elem_of_In, elem_of_remove_dups, list_elem_of_In, in_map_iff in Hx.
  rewrite <- list_elem_of_In, elem_of_remove_dups, list_elem_of_In, in_map_iff in Hy.
  destruct Hx as (k1 & <- & _), Hy as (k2 & <- & _). simpl in Hxy. now subst.
Qed.

Lemma name_of_appid (games : list (Z * option string)) (name : option string) (appid : Z) :
  List.NoDup (map fst games) ->
  dict_get name (game_options games) = Some appid ->
  dict_get appid (appid_to_name (game_options games)) = Some name.
Proof.
  intros Hnd Hget. unfold appid_to_name.
  assert (Hitem : forall n, In (n, appid) (game_options games) -> In (appid, n) games).
  { intros n Hn. apply dict_of_items, in_map_iff in Hn.
    destruct Hn as ([a n'] & [= -> ->] & Hin). exact Hin. }
  pose proof (dict_get_In _ _ _ Hget) as Hin.
  destruct (dict_get_is_Some appid (rev (map (fun kv => (kv.2, kv.1)) (game_options games))))
    as [name' Hname'].
  { rewrite <- map_rev. rewrite List.map_map. simpl.
    apply in_map_iff. exists (name, appid). split; [reflexivity|]. now apply -> in_rev. }
  rewrite dict_get_dict_of, Hname'. f_equal.
  apply dict_get_In, in_rev, in_map_iff in Hname'.
  destruct Hname' as ([n a] & [= -> ->] & Hn'). simpl in *.
  pose proof (unique_key_same_row fst games (appid, name') (appid, name) Hnd
                (Hitem _ Hn') (Hitem _ Hin) eq_refl) as Heq.
  congruence.
Qed.

(** On the hourly page a name of the selector stands for one game, and
    the legend of the chart gives that game its name back: the appid
    looked up for a name has this name in the reverse dictionary. *)
Theorem selector_round_trip `{E : Engine} (run_date : date) (d : database)
    (name : option string) (appid : Z) :
  dict_get name (game_options (all_games_query run_date d)) = Some appid ->
  dict_get appid (appid_to_name (game_options (all_games_query run_date d))) = Some name.
Proof. apply name_of_appid, all_games_query_NoDup. Qed.

Lemma selector_round_trip_witness :
  dict_get 2%Z (appid_to_name (game_options
                                (all_games_query (E := stable_engine) sample_day sample_games)))
  = Some (Some "B").
Proof.
  apply (selector_round_trip (E := stable_engine) sample_day sample_games (Some "B") 2).
  vm_compute. reflexivity.
Defined.

(** Two games under one name: the later one takes the name in the
    selector, the earlier one cannot be chosen. *)
Example same_name_hides_a_game :
  game_options sample_selector = [(Some "Dota 2", 30%Z); (Some "Apex", 20%Z)]
  /\ game_names (game_options sample_selector) = Some [Some "Apex"; Some "Dota 2"].
Proof. split; vm_compute; reflexivity. Qed.

Lemma game_names_are_keys (options : list (option string * Z)) (names : list (option string)) :
  game_names options = Some names ->
  forall g, In g names -> In g (map fst options).
Proof.
  unfold game_names. intros Hn g Hg.
  destruct (map fst options) as [|k1 [|k2 ks]] eqn:Hk.
  - injection Hn as <-. exact Hg.
  - injection Hn as <-. exact Hg.
  - destruct (mapM id (k1 :: k2 :: ks)) as [l|] eqn:Hm; [|discriminate].
    simpl in Hn. injection Hn as <-.
    apply in_map_iff in Hg. destruct Hg as (name & <- & Hname).
    apply (Permutation_in _ (order_by_Permutation (Engine := stable_engine) _ _ _)) in Hname.
    apply mapM_Some_1 in Hm. clear Hk.
    induction Hm as [|x y xs ys Hxy Hm IH]; [destruct Hname|].
    destruct Hname as [<-|Hname]; [left; exact Hxy | right; now apply IH].
Qed.

(** Whatever the user picks among the names offered, every pick has its
    appid (no missing key), every appid found is one of the games
    listed, and every one has a name for the legend of the chart. This
    holds for the selector of the daily page and for the one of the
    hourly page. *)
Theorem selection_finds_every_game (games : list (Z * option string))
    (names selected_games : list (option string)) :
  game_names (game_options games) = Some names ->
  (forall g, In g selected_games -> In g names) ->
  exists appids,
    selected_appids (game_options games) selected_games = Some appids
    /\ length appids = length selected_games
    /\ forall a, In a appids ->
                 In a (map fst games)
                 /\ is_Some (dict_get a (appid_to_name (game_options games))).
Proof.
  intros Hnames Hsel.
  assert (Hkeys : forall g, In g selected_games -> is_Some (dict_get g (game_options games))).
  { intros g Hg. apply dict_get_is_Some.
    apply (game_names_are_keys _ _ Hnames). now apply Hsel. }
  destruct (mapM_is_Some_2 (fun game => dict_get game (game_options games)) selected_games)
    as [appids Happids].
  { apply List.Forall_forall. exact Hkeys. }
  exists appids. split; [exact Happids|].
  apply mapM_Some_1 in Happids.
  split; [symmetry; eapply Forall2_length; exact Happids|].
  intros a Ha.
  assert (Hg : exists g, In (g, a) (game_options games)).
  { clear Hkeys Hsel. induction Happids as [|g a' gs as' Hga _ IH]; [destruct Ha|].
    destruct Ha as [<-|Ha]; [exists g; now apply dict_get_In | now apply IH]. }
  destruct Hg as [g Hg]. split.
  - apply dict_of_items, in_map_iff in Hg.
    destruct Hg as ([a0 g0] & [= -> ->] & Hin). now apply (in_map fst) in Hin.
  - unfold appid_to_name. rewrite dict_get_dict_of. apply dict_get_is_Some.
    rewrite <- map_rev, List.map_map. simpl.
    apply in_map_iff. exists (g, a). split; [reflexivity|]. now apply -> in_rev.
Qed.

Lemma selection_finds_every_game_witness :
  exists appids,
    selected_appids (game_options sample_selector) [Some "Dota 2"] = Some appids
    /\ length appids = length [Some "Dota 2"]
    /\ forall a, In a appids ->
                 In a (map fst sample_selector)
                 /\ is_Some (dict_get a (appid_to_name (game_options sample_selector))).
Proof.
  apply (selection_finds_every_game sample_selector [Some "Apex"; Some "Dota 2"]).
  - vm_compute. reflexivity.
  - intros g [<-|[]]. right. now left.
Defined.

(** ** The price page *)

Lemma sql_max_positive (col : list (option Q)) :
  col <> [] ->
  List.Forall (fun o => exists p, o = Some p /\ 0 < p) col ->
  exists m, sql_max col = Some m /\ 0 < m.
Proof.
  intros Hne Hall. unfold sql_max, non_null.
  destruct col as [|o col]; [congruence|].
  apply List.Forall_cons_iff in Hall. destruct Hall as [(p & -> & Hp) Hall].
  simpl.
  assert (Hfold : forall vs v, List.Forall (fun q => 0 < q) vs -> 0 < v ->
                               0 < fold_left Qmax2 vs v).
  { induction vs as [|q vs IH]; intros v Hvs Hv; simpl; [exact Hv|].
    apply List.Forall_cons_iff in Hvs. destruct Hvs as [Hq Hvs].
    apply IH; [exact Hvs|]. unfold Qmax2. now destruct (Qle_bool v q). }
  eexists. split; [reflexivity|]. apply Hfold; [|exact Hp].
  clear Hne. induction col as [|o col IH]; simpl; [constructor|].
  apply List.Forall_cons_iff in Hall. destruct Hall as [(q & -> & Hq) Hall].
  simpl. constructor; [exact Hq | now apply IH].
Qed.

(** Every game of the price page is a paid game with reviews: its price
    is above 0, it has 10 reviews or more, and its sentiment is a number
    (never a division by zero). *)
Theorem price_rows_are_paid_and_rated `{E : Engine} (run_date : date) (d : database)
    (r : price_row) :
  In r (price_query run_date d) ->
  exists p t s,
    price_usd r = Some p /\ 0 < p
    /\ total_reviews (add_sentiment r) = Some t /\ 10 <= t
    /\ sentiment_pct (add_sentiment r) = Some s.
Proof.
  unfold price_query. intros Hr.
  apply (Permutation_in _ (order_by_Permutation _ _ _)) in Hr.
  apply filter_In in Hr. destruct Hr as [Hr Hhaving].
  apply in_map_iff in Hr. destruct Hr as (appid & <- & Happid).
  simpl in *.
  set (rows := List.filter
                 (fun r => date_eqb (g_run_date r) run_date && nan_gt (g_price_usd r) 0)
                 (games_cleaned d)) in *.
  set (group := List.filter (fun r => (g_appid r =? appid)%Z) rows) in *.
  destruct (sql_max_positive (map g_price_usd group)) as (p & Hp & Hpos).
  - rewrite <- list_elem_of_In, elem_of_remove_dups, list_elem_of_In, in_map_iff in Happid.
    destruct Happid as (row & Hid & Hrow).
    assert (Hin : In row group) by (apply filter_In; split; [exact Hrow | now apply Z.eqb_eq]).
    intros Hnil. apply (in_map g_price_usd) in Hin. rewrite Hnil in Hin. destruct Hin.
  - apply List.Forall_forall. intros o Ho. apply in_map_iff in Ho.
    destruct Ho as (row & <- & Hrow).
    apply filter_In in Hrow. destruct Hrow as [Hrow _].
    apply filter_In in Hrow. destruct Hrow as [_ Hrow].
    apply andb_true_iff in Hrow. destruct Hrow as [_ Hgt].
    destruct (g_price_usd row) as [q|]; [|discriminate].
    exists q. split; [reflexivity | now apply Qlt_bool_iff].
  - apply nan_ge_spec in Hhaving. destruct Hhaving as (t & ten & Ht & [= <-] & Hle).
    exists p, t.
    destruct (sql_sum (map g_positive_reviews group)) as [a|]; [|discriminate].
    destruct (sql_sum (map g_negative_reviews group)) as [b|]; [|discriminate].
    unfold nan_add. rewrite Ht. simpl.
    destruct (Qeq_bool t 0) eqn:Hz.
    + apply Qeq_bool_iff in Hz. rewrite Hz in Hle. exfalso.
      apply (Qle_not_lt _ _ Hle). reflexivity.
    + simpl. eexists. repeat split; [exact Hp | exact Hpos | exact Hle].
Qed.

Lemma price_rows_are_paid_and_rated_witness :
  let r := PriceRow 2 (Some "B") (Some 20) (Some 30) (Some 30) (Some 5000) in
  exists p t s,
    price_usd r = Some p /\ 0 < p
    /\ total_reviews (add_sentiment r) = Some t /\ 10 <= t
    /\ sentiment_pct (add_sentiment r) = Some s.
Proof.
  intros r.
  apply (price_rows_are_paid_and_rated (E := stable_engine) sample_day sample_games r).
  vm_compute. left. reflexivity.
Defined.

Lemma quantile_of_one (q s : Q) :
  exists v, quantile q [Some s] = Some v /\ v == s.
Proof.
  unfold quantile.
  change (non_null [Some s]) with [s].
  change (stable_sort Qle_bool [s]) with [s].
  cbv zeta. cbn [length Nat.sub].
  eexists. split; [reflexivity|].
  rewrite Qred_correct.
  destruct (Z.to_nat (Qfloor (q * inject_Z (Z.of_nat 0)))) as [|[|n]]; cbn [nth]; ring.
Qed.

(** With a single game on the page the quartiles are its own values: the
    game is listed as a bargain and as overpriced at once. *)
Theorem lone_game_is_in_both_lists (r : priced) (s p : Q) :
  sentiment_pct r = Some s ->
  price_of r = Some p ->
  bargains [r] = [r] /\ overpriced [r] = [r].
Proof.
  intros Hs Hp. unfold bargains, overpriced. cbn [map List.filter]. rewrite Hs, Hp.
  destruct (quantile_of_one (75 # 100) s) as (s75 & -> & Hs75).
  destruct (quantile_of_one (25 # 100) s) as (s25 & -> & Hs25).
  destruct (quantile_of_one (75 # 100) p) as (p75 & -> & Hp75).
  destruct (quantile_of_one (25 # 100) p) as (p25 & -> & Hp25).
  cbn [nan_ge nan_le].
  assert (H1 : Qle_bool s75 s = true) by (apply Qle_bool_iff; rewrite Hs75; apply Qle_refl).
  assert (H2 : Qle_bool p p25 = true) by (apply Qle_bool_iff; rewrite Hp25; apply Qle_refl).
  assert (H3 : Qle_bool s s25 = true) by (apply Qle_bool_iff; rewrite Hs25; apply Qle_refl).
  assert (H4 : Qle_bool p75 p = true) by (apply Qle_bool_iff; rewrite Hp75; apply Qle_refl).
  rewrite H1, H2, H3, H4. split; reflexivity.
Qed.

Lemma lone_game_is_in_both_lists_witness :
  let r := add_sentiment (PriceRow 2 (Some "B") (Some 20) (Some 30) (Some 30) (Some 5000)) in
  bargains [r] = [r] /\ overpriced [r] = [r].
Proof.
  intros r. apply (lone_game_is_in_both_lists r 50 20); reflexivity.
Defined.

(** When the statement of the price page fails, the page lists no
    bargain and no overpriced game. Behind a connection that is down it
    shows the error of the fetch and then the warning that the date has
    no data, and returns two empty lists. After a failed execution the
    [DatabaseError] of pandas leaves the page, with nothing shown. *)
Theorem price_page_stops_after_failure `{E : Engine} (conn : connection)
    (selected_date : date) (w : world) (f : failure) :
  fault conn (length (sent w)) = Some f ->
  show_price_vs_review_sentiment conn selected_date w
  = match f with
    | Disconnected msg =>
        (Returned ([], []),
         World (sent w ++ [(price_sql, [PDate selected_date])])
               (shown w ++ [StError ("Error fetching price sentiment data: " ++ msg)%string;
                            StWarning ("⚠️ No data available for "
                                       ++ isoformat selected_date)%string]))
    | ExecuteFailed text =>
        (Raised (DatabaseError text),
         World (sent w ++ [(price_sql, [PDate selected_date])]) (shown w))
    end.
Proof.
  intros Hf.
  unfold show_price_vs_review_sentiment, fetch_price_sentiment_data, try_except_Error,
    bind, read_sql, ret, st_error, st_warning.
  rewrite Hf. destruct f; simpl; [|reflexivity].
  rewrite <- app_assoc. reflexivity.
Qed.

Lemma price_page_stops_after_failure_witness :
  show_price_vs_review_sentiment (E := stable_engine)
    (failing sample_games "Execution failed on sql: Lost connection") sample_day fresh
  = (Raised (DatabaseError "Execution failed on sql: Lost connection"),
     World ([] ++ [(price_sql, [PDate sample_day])]) []).
Proof.
  exact (price_page_stops_after_failure (E := stable_engine)
           (failing sample_games "Execution failed on sql: Lost connection")
           sample_day fresh (ExecuteFailed "Execution failed on sql: Lost connection")
           eq_refl).
Defined.

(** ** The dates of the selector *)

Lemma dates_query_In `{E : Engine} (d : database) (x : date) :
  In x (dates_query d) <-> exists row, In row (games_cleaned d) /\ g_run_date row = x.
Proof.
  unfold dates_query. split.
  - intros Hx. apply (Permutation_in _ (order_by_Permutation _ _ _)) in Hx.
    rewrite <- list_elem_of_In, elem_of_remove_dups, list_elem_of_In, in_map_iff in Hx.
    destruct Hx as (row & Hrow & Hin). eauto.
  - intros (row & Hin & <-).
    apply (Permutation_in _ (Permutation_sym (order_by_Permutation _ _ _))).
    rewrite <- list_elem_of_In, elem_of_remove_dups, list_elem_of_In. now apply in_map.
Qed.

(** On a healthy connection the date selector offers exactly the dates
    that have a record, each once, the newest first. *)
Theorem available_dates_are_distinct_and_descending `{E : Engine} (d : database)
    (w : world) :
  exists dates,
    (fetch_available_dates (healthy d) w).1 = Returned dates
    /\ List.NoDup dates
    /\ StronglySorted (fun a b => date_leb b a = true) dates
    /\ forall x, In x dates
                 <-> exists row, In row (games_cleaned d) /\ g_run_date row = x.
Proof.
  exists (dates_query d). split; [|split; [|split]].
  - unfold fetch_available_dates, try_except_Error, bind, read_sql, ret, healthy. simpl.
    now destruct (dates_query d).
  - unfold dates_query.
    apply (Permutation_NoDup (Permutation_sym (order_by_Permutation _ _ _))).
    apply NoDup_ListNoDup, NoDup_remove_dups.
  - unfold dates_query. apply (order_by_Sorted date (fun x y => date_leb y x)).
    + intros x y. destruct (date_leb_total x y); auto.
    + intros x y z Hxy Hyz. now apply date_leb_trans with y.
  - apply dates_query_In.
Qed.

Lemma trending_candidates_of_date `{E : Engine} (run_date : date) (d : database) :
  (exists row, In row (games_cleaned d) /\ g_run_date row = run_date) ->
  trending_candidates run_date d <> [].
Proof.
  intros (row & Hin & Hdate). unfold trending_candidates.
  intros Hnil. apply map_eq_nil, remove_dups_nil, map_eq_nil in Hnil.
  assert (Hrow : In row (List.filter (fun r => date_eqb (g_run_date r) run_date)
                           (games_cleaned d))).
  { apply filter_In. split; [exact Hin | now apply date_eqb_eq]. }
  rewrite Hnil in Hrow. destruct Hrow.
Qed.

(** For a date of the selector and a count of 1 or more, the trending
    fetch finds games on a healthy connection: it returns one game at
    least, so the page does not take its way out for a date without
    data. *)
Theorem selector_date_has_games `{E : Engine} (d : database) (selected_date : date)
    (top_n : Z) (w : world) :
  In selected_date (dates_query d) ->
  (1 <= top_n)%Z ->
  exists game games,
    fetch_top_trending_games_data (healthy d) selected_date top_n w
    = (Returned (game :: games),
       World (sent w ++ [(trending_sql, [PDate selected_date; PInt top_n])]) (shown w)).
Proof.
  intros Hdate Hn. apply dates_query_In in Hdate.
  apply trending_candidates_of_date in Hdate.
  unfold fetch_top_trending_games_data, try_except_Error, bind, read_sql, ret, healthy.
  simpl. unfold trending_query.
  destruct (Z.ltb_spec top_n 0) as [Hneg|_]; [lia|].
  set (sorted := order_by _ (trending_candidates selected_date d)).
  assert (Hlen : length sorted = length (trending_candidates selected_date d))
    by (apply Permutation_length, order_by_Permutation).
  destruct (trending_candidates selected_date d) as [|c cs]; [congruence|].
  destruct sorted as [|x xs]; [discriminate|].
  destruct (Z.to_nat top_n) as [|n] eqn:Hk; [lia|].
  simpl. eauto.
Qed.

Lemma selector_date_has_games_witness :
  exists game games,
    fetch_top_trending_games_data (E := stable_engine) (healthy sample_games) sample_day 5 fresh
    = (Returned (game :: games),
       World ([] ++ [(trending_sql, [PDate sample_day; PInt 5])]) []).
Proof.
  apply (selector_date_has_games (E := stable_engine) sample_games sample_day 5 fresh).
  - vm_compute. left. reflexivity.
  - lia.
Defined.

(** ** The top 100 of an hour *)

Lemma In_take {A} (n : nat) (l : list A) (x : A) : In x (take n l) -> In x l.
Proof.
  intros Hx. rewrite <- (take_drop n l). apply in_or_app. now left.
Qed.

(** What [fetch_top_100_hourly] can do. When it returns, it returns a set
    of 100 appids at most, each of a game recorded in [trending_games]
    at that date and hour, and the empty set behind a connection that is
    down. The only exception it passes on is the [DatabaseError] of
    pandas, when its statement fails while it is executed. *)
Theorem top_100_hourly_is_bounded (conn : connection) (run_date : date) (run_hour : Z)
    (w : world) :
  match (fetch_top_100_hourly conn run_date run_hour w).1 with
  | Returned ids =>
      (size ids <= 100)%nat
      /\ (forall a, a ∈ ids ->
                    exists row, In row (trending_games (db conn))
                                /\ t_appid row = a
                                /\ t_run_date row = run_date
                                /\ t_run_hour row = run_hour)
      /\ (forall msg, fault conn (length (sent w)) = Some (Disconnected msg) -> ids = ∅)
      /\ (forall text, fault conn (length (sent w)) <> Some (ExecuteFailed text))
  | Raised e =>
      exists text, e = DatabaseError text
                   /\ fault conn (length (sent w)) = Some (ExecuteFailed text)
  end.
Proof.
  unfold fetch_top_100_hourly, try_except_Error, bind, read_sql, ret, st_error.
  destruct (fault conn (length (sent w))) as [[msg|text]|]; simpl.
  - split; [apply (Nat.le_0_l 100)|].
    split; [|split; [reflexivity | discriminate]].
    intros a Ha. apply not_elem_of_empty in Ha. destruct Ha.
  - eauto.
  - set (result := top_100_distinct_query run_date run_hour (db conn)).
    split; [|split; [|split; discriminate]].
    + pose proof (size_appid_set result) as Hs.
      assert (length result <= 100)%nat
        by (unfold result, top_100_distinct_query; rewrite length_take; lia).
      lia.
    + intros a Ha.
      assert (Hin : In a (map fst result)).
      { unfold appid_set in Ha. destruct result as [|r rs].
        - apply not_elem_of_empty in Ha. destruct Ha.
        - apply elem_of_list_to_set in Ha. now apply list_elem_of_In. }
      apply in_map_iff in Hin. destruct Hin as ([a' name] & Ha' & Hin). simpl in Ha'.
      subst a'. unfold result, top_100_distinct_query in Hin.
      apply In_take in Hin.
      rewrite <- list_elem_of_In, elem_of_remove_dups, list_elem_of_In, in_map_iff in Hin.
      destruct Hin as (row & [= Hid _] & Hrow).
      apply filter_In in Hrow. destruct Hrow as [Hrow Hmatch].
      apply andb_true_iff in Hmatch. destruct Hmatch as [Hd Hh].
      exists row. repeat split; [exact Hrow | exact Hid | now apply date_eqb_eq
                                 | now apply Z.eqb_eq].
Qed.

(** ** Hours outside the two windows *)

(** A record of hour 0 is in neither window (the morning is 1 to 12, the
    afternoon 13 to 23): records of hour 0 added to the table change
    nothing of the momentum analysis. *)
Theorem midnight_records_are_ignored `{E : Engine} (d : database)
    (midnight : list games_row) (selected_date : date) (w : world) :
  (forall r, In r midnight -> g_run_hour r = 0%Z) ->
  momentum_analysis
    (healthy (Database (games_cleaned d ++ midnight) (trending_games d) (player_count d)))
    selected_date w
  = momentum_analysis (healthy d) selected_date w.
Proof.
  intros Hzero.
  assert (Hf : forall h_start h_end, (1 <= h_start)%Z ->
             List.filter (in_window selected_date h_start h_end)
               (games_cleaned d ++ midnight)
             = List.filter (in_window selected_date h_start h_end) (games_cleaned d)).
  { intros h_start h_end Hs. rewrite List.filter_app.
    assert (Hnil : List.filter (in_window selected_date h_start h_end) midnight = []).
    { clear - Hzero Hs. induction midnight as [|r rows IH]; simpl; [reflexivity|].
      assert (Hr : in_window selected_date h_start h_end r = false).
      { unfold in_window. rewrite (Hzero r) by now left.
        destruct (Z.leb_spec h_start 0); [lia|].
        now rewrite andb_false_r. }
      rewrite Hr. apply IH. intros r' Hr'. apply Hzero. now right. }
    rewrite Hnil. apply app_nil_r. }
  unfold momentum_analysis, try_except_Exception, bind, read_sql, ret, healthy. simpl.
  unfold momentum_query, morning, afternoon. simpl.
  rewrite !Hf by lia. reflexivity.
Qed.

Lemma midnight_records_are_ignored_witness :
  momentum_analysis (E := stable_engine)
    (healthy (Database
                (games_cleaned sample_games
                 ++ [GamesRow 9 "Z" sample_day 0 None None None None (Some 50)])
                (trending_games sample_games) (player_count sample_games)))
    sample_day fresh
  = momentum_analysis (E := stable_engine) (healthy sample_games) sample_day fresh.
Proof.
  apply (midnight_records_are_ignored (E := stable_engine) sample_games
           [GamesRow 9 "Z" sample_day 0 None None None None (Some 50)] sample_day fresh).
  intros r [<-|[]]. reflexivity.
Defined.

(** ** Whole thousands *)

Lemma round_half_away_0_whole (x : Q) : exists n : Z, round_half_away 0 x == inject_Z n.
Proof.
  unfold round_half_away. cbv zeta. change (inject_Z (10 ^ 0)) with 1.
  eexists. rewrite Qred_correct. unfold Qdiv. change (/ 1) with 1. apply Qmult_1_r.
Qed.

(** The daily totals are whole numbers of thousands: [players_k] has no
    fraction. *)
Theorem daily_totals_are_whole_thousands `{E : Engine} (appids : list Z) (d : database)
    (r : daily_trend) (q : Q) :
  In r (trends_query appids d) ->
  players_k r = Some q ->
  exists n : Z, q == inject_Z n.
Proof.
  intros Hr Hq.
  apply (in_map (fun r => DailyTotal (d_appid r) (d_run_date r) (players_k r))) in Hr.
  apply (Permutation_in _ (trends_query_totals appids d)) in Hr.
  unfold daily_totals in Hr. apply in_map_iff in Hr.
  destruct Hr as (k & [= _ _ Hk] & _).
  rewrite Hq in Hk. unfold sum_k in Hk.
  destruct (sql_div _ _) as [x|]; [|discriminate].
  simpl in Hk. injection Hk as <-. apply round_half_away_0_whole.
Qed.

Lemma daily_totals_are_whole_thousands_witness : exists n : Z, 7 == inject_Z n.
Proof.
  apply (daily_totals_are_whole_thousands (E := stable_engine) [1%Z] sample_players
           (DailyTrend 1 sample_day (Some 7) None None None) 7).
  - vm_compute. left. reflexivity.
  - reflexivity.
Defined.
